(** * sdm-pack-fingerprints: vote tallying, target preferences, diff rendering
      and the fingerprint runner

    A shallow embedding of
    - [atomist.main] (ClojureScript, src/unnamed/part_001): [voteResults],
      [fpPreferences], [fpPreference], [format-list], [renderDiff];
    - [fingerprintRunner] (TypeScript), which occurs twice in the sources:
      src/unnamed/part_001 and src/lib/machine/FingerprintSupport.ts.

    Data crossing the JavaScript/ClojureScript boundary is JSON-like, so one
    type [value] stands for both sides; [js_clj] and [clj_js] mark the places
    where the source converts.

    Further embedded: [processPushImpact], [renderClojureProjectDiff] and
    [commaSeparatedList] of [atomist.main]; [orDefault], [prBody],
    [oneFingerprint], [applyAll] and [messageMaker] (src/unnamed/part_001);
    [pusher] and the listeners of [SetTargetFingerprint] and
    [SetTargetFingerprintFromLatestMaster]
    (src/lib/fingerprints/applyFingerprint.ts).  What these call outside the
    sources is a parameter of the section that embeds them. *)

From Stdlib Require Import Ascii.
From stdpp Require Import gmap strings list pretty.

#[local] Set Warnings "-register-all".
#[local] Open Scope string_scope.
#[local] Open Scope list_scope.

(** ** Values *)

(** [VNil] is JavaScript's null/undefined and Clojure's nil; a key that is
    missing reads as nil.  Objects whose keys were keywordized are maps from
    the key's name.  Numbers are integers: no function below computes with
    them. *)
Inductive value : Type :=
  | VNil
  | VBool (b : bool)
  | VNum (n : Z)
  | VStr (s : string)
  | VVec (xs : list value)
  | VMap (m : gmap string value).

(** Clojure truthiness: everything but nil and false. *)
Definition truthy (v : value) : bool :=
  match v with
  | VNil | VBool false => false
  | _ => true
  end.

(** JavaScript truthiness: null, false, 0 and the empty string are falsy. *)
Definition js_truthy (v : value) : bool :=
  match v with
  | VNil | VBool false | VNum 0 | VStr "" => false
  | _ => true
  end.

(** [fp instanceof Array] *)
Definition instanceof_Array (v : value) : bool :=
  match v with VVec _ => true | _ => false end.

(** [(map? x)] *)
Definition is_map (v : value) : bool :=
  match v with VMap _ => true | _ => false end.

(** Keyword lookup [(:k x)]: nil on a missing key and on anything that is
    not a map. *)
Definition get (k : string) (v : value) : value :=
  match v with
  | VMap m => default VNil (m !! k)
  | _ => VNil
  end.

(** [(contains? x :k)] for a keyword [k]; ClojureScript answers false on
    collections that cannot hold the key. *)
Definition contains (v : value) (k : string) : bool :=
  match v with
  | VMap m => bool_decide (is_Some (m !! k))
  | _ => false
  end.

(** [(= "literal" x)] *)
Definition clj_eq_str (s : string) (v : value) : bool :=
  match v with
  | VStr t => String.eqb s t
  | _ => false
  end.

(** [(js->clj x :keywordize-keys true)] and [(clj->js x)]: on JSON-like
    data they change the representation only (arrays and vectors, objects
    and maps, property names and keywords), which [value] does not record. *)
Definition js_clj (v : value) : value := v.
Definition clj_js (v : value) : value := v.

(** [(some f coll)]: the first truthy [(f x)], else nil. *)
Fixpoint some (f : value -> value) (coll : list value) : value :=
  match coll with
  | [] => VNil
  | x :: rest => if truthy (f x) then f x else some f rest
  end.

(** [(boolean x)] *)
Definition boolean (v : value) : bool := truthy v.

(** ** Effects: exceptions and the log *)

Inductive thrown : Type :=
  | NotISeqable (coll : value)
  | JsThrow (e : value).

Inductive outcome (A : Type) : Type :=
  | Returned (a : A)
  | Thrown (e : thrown).
Arguments Returned {A} a.
Arguments Thrown {A} e.

Inductive log_entry : Type :=
  | LogError (e : thrown)
  | LogInfo (what : value).

(** A computation may write to the log and either returns or throws. *)
Definition M (A : Type) : Type := list log_entry -> outcome A * list log_entry.

Definition ret {A} (a : A) : M A := fun log => (Returned a, log).

Definition bind {A B} (c : M A) (k : A -> M B) : M B :=
  fun log =>
    match c log with
    | (Returned a, log') => k a log'
    | (Thrown e, log') => (Thrown e, log')
    end.

Definition lift {A} (o : outcome A) : M A := fun log => (o, log).

Definition try_catch {A} (body : M A) (handler : thrown -> M A) : M A :=
  fun log =>
    match body log with
    | (Returned a, log') => (Returned a, log')
    | (Thrown e, log') => handler e log'
    end.

Definition log_error (e : thrown) : M value :=
  fun log => (Returned VNil, log ++ [LogError e]).

Definition log_info (what : value) : M value :=
  fun log => (Returned VNil, log ++ [LogInfo what]).

Notation "x <- c ;; k" := (bind c (fun x => k))
  (at level 100, c at next level, right associativity).
Notation "c ;;; k" := (bind c (fun _ => k))
  (at level 100, right associativity).

Fixpoint mapM {A B} (f : A -> M B) (xs : list A) : M (list B) :=
  match xs with
  | [] => ret []
  | x :: rest => y <- f x ;; ys <- mapM f rest ;; ret (y :: ys)
  end.

(** [for (const x of xs) { s = body(s, x) }] *)
Fixpoint for_of {A S} (xs : list A) (body : S -> A -> M S) (s : S) : M S :=
  match xs with
  | [] => ret s
  | x :: rest => s' <- body s x ;; for_of rest body s'
  end.

(** ** cljs.core sequences *)

(** [(seq coll)]: nil, vectors, strings and maps are seqable; a number or a
    boolean is not.  The entries of a map come in the order of the map's own
    enumeration, which no statement below depends on. *)
Definition seq (coll : value) : M (list value) :=
  match coll with
  | VNil => ret []
  | VVec xs => ret xs
  | VStr s => ret (map (fun c => VStr (String c "")) (String.list_ascii_of_string s))
  | VMap m => ret (map (fun kv => VVec [VStr kv.1; kv.2]) (map_to_list m))
  | _ => lift (Thrown (NotISeqable coll))
  end.

(** [(first coll)] *)
Definition first (coll : value) : M value :=
  xs <- seq coll ;; ret (hd VNil xs).

(** [(interpose sep coll)] *)
Fixpoint interpose {A} (sep : A) (coll : list A) : list A :=
  match coll with
  | [] => []
  | [x] => [x]
  | x :: rest => x :: sep :: interpose sep rest
  end.

(** [(apply str coll)] on strings; [str] of nil is the empty string. *)
Definition str (parts : list (option string)) : string :=
  fold_right (fun p acc => default "" p +:+ acc) "" parts.

(** ** VoteResults *)

Record VoteResults : Type := {
  failed : bool;
  failedFps : list value;
  successFps : list value;
  failedVotes : list value;
}.

Module Main.

(** [voteResults], src/unnamed/part_001 lines 565-579. *)
Definition voteResults (votes : list value) : VoteResults :=
  let vs :=
    List.filter (fun v => is_map v && truthy (get "decision" v))
                (map js_clj votes) in
  {| failed :=
       boolean (some (fun v => VBool (clj_eq_str "Against" (get "decision" v))) vs);
     failedFps :=
       map clj_js (map (get "name")
         (List.filter (fun v => clj_eq_str "Against" (get "decision" v)) vs));
     successFps :=
       map clj_js (map (get "name")
         (List.filter (fun v => clj_eq_str "For" (get "decision" v)) vs));
     failedVotes :=
       map clj_js
         (List.filter (fun v => clj_eq_str "Against" (get "decision" v)) vs) |}.

(** *** Target preferences *)

Section Preferences.

(** [atomist.json/json->clj] is not part of the sources at hand: it is a
    parameter, returning the decoded value or throwing. *)
Variable json_clj : value -> outcome value.

(** The function mapped over the preferences: [{:keys [name value]}] is
    destructured, [value] is decoded, and a failure is logged; the logger's
    result, nil, stands for the entry. *)
Definition decode_preference (pref : value) : M value :=
  let value := get "value" pref in
  try_catch (lift (json_clj value))
            (fun x => log_error x).

(** The predicate handed to [filter]. *)
Definition has_target_keys (x : value) : bool :=
  truthy x && contains x "name" && contains x "sha" && contains x "data".

(** [fpPreferences], src/unnamed/part_001 lines 637-653. *)
Definition fpPreferences (query : value) : M value :=
  team <- first (get "ChatTeam" (js_clj query)) ;;
  prefs <- seq (get "preferences" team) ;;
  decoded <- mapM decode_preference prefs ;;
  ret (clj_js (VVec (List.filter has_target_keys decoded))).

(** [fpPreference], src/unnamed/part_001 lines 655-660. *)
Definition fpPreference (query : value) (fp_name : string) : M value :=
  prefs <- fpPreferences query ;;
  xs <- seq (js_clj prefs) ;;
  ret (clj_js (some (fun x => if clj_eq_str fp_name (get "name" x)
                              then x else VNil) xs)).

End Preferences.

(** *** Rendering a diff *)

Section Rendering.

(** How [goog.string/format] prints an argument of [%s] that is not a
    string already (JavaScript's [String(x)]); the Closure library is not
    part of the sources. *)
Variable js_String : value -> string.

Definition fmt_s (v : value) : string :=
  match v with
  | VStr s => s
  | _ => js_String v
  end.



Definition newline : string := String "010"%char "".


End Rendering.

(** *** Handlers of a push impact *)

(** A JavaScript [Error] thrown by the runtime, kept by its message (the
    wording is abbreviated). *)
Definition js_Error (msg : string) : thrown := JsThrow (VStr msg).

(** [(dissoc m k)]: defined on maps and on nil. *)
Definition dissoc (m : value) (k : string) : M value :=
  match m with
  | VMap g => ret (VMap (delete k g))
  | VNil => ret VNil
  | _ => lift (Thrown (js_Error "No protocol method IMap.-dissoc"))
  end.

(** [(assoc m k v)] for a keyword [k]: defined on maps and on nil. *)
Definition assoc (m : value) (k : string) (v : value) : M value :=
  match m with
  | VMap g => ret (VMap (<[k := v]> g))
  | VNil => ret (VMap {[ k := v ]})
  | _ => lift (Thrown (js_Error "No protocol method IAssociative.-assoc"))
  end.

Section PushImpact.

(** [atomist.impact/process-push-impact] and [promise/chan->obj-promise]
    are not part of the sources; [get-fingerprint] is a callback handed
    through. *)
Context {GetFingerprint Promise : Type}.
Variable process_push_impact :
  value -> GetFingerprint -> list value -> list value -> M value.
Variable chan_obj_promise : M value -> M Promise.

(** [processPushImpact], src/unnamed/part_001 lines 581-606.  The two
    lazy sequences are realized here, before the call that consumes them. *)
Definition processPushImpact (event : value) (get_fingerprint : GetFingerprint)
    (obj : value) : M Promise :=
  handlers <- seq (js_clj obj) ;;
  no_diff_handlers <-
    mapM (fun h => dissoc h "diffAction")
         (List.filter (fun h => contains h "action") handlers) ;;
  diff_handlers <-
    mapM (fun h => h' <- assoc h "action" (get "diffAction" h) ;;
                   dissoc h' "diffAction")
         (List.filter (fun h => contains h "diffAction") handlers) ;;
  chan_obj_promise
    (process_push_impact (js_clj event) get_fingerprint
       diff_handlers no_diff_handlers).

End PushImpact.

(** *** Rendering for Clojure projects *)


Section ClojureRendering.

Variable js_String : value -> string.


(** [(str x)] for one argument. *)
Definition str1 (x : value) : string :=
  match x with
  | VNil => ""
  | VStr s => s
  | _ => js_String x
  end.

(** [commaSeparatedList], src/unnamed/part_001 lines 706-708. *)
Definition commaSeparatedList (x : value) : M string :=
  event <- seq (js_clj x) ;;
  ret (str (map (fun part => Some (str1 part)) (interpose (VStr ",") event))).

End ClojureRendering.

End Main.

(** ** The fingerprint runner *)

(** [FingerprintRegistration]: [extract] is awaited, so it either yields a
    value or throws; the optional [apply] and [summary] are not used by the
    runner. *)
Record FingerprintRegistration (GitProject : Type) : Type := {
  selector : value -> bool;
  extract : GitProject -> outcome value;
}.
Arguments selector {GitProject} _ _.
Arguments extract {GitProject} _ _.

(** [fps.push(fp)] *)
Definition array_push (fps : list value) (fp : value) : list value := fps ++ [fp].

(** [fps.concat(fp)]: an array argument is spread, anything else is appended. *)
Definition array_concat (fps : list value) (fp : value) : list value :=
  match fp with
  | VVec xs => fps ++ xs
  | _ => fps ++ [fp]
  end.

(** src/lib/machine/FingerprintSupport.ts lines 316-337. *)
Module Machine.
Section Runner.
Context {GitProject : Type}.

Definition fingerprintRunner
    (fingerprinters : list (FingerprintRegistration GitProject))
    (p : GitProject) : M (list value) :=
  fps <- for_of fingerprinters
           (fun fps fingerprinter =>
              try_catch
                (fp <- lift (extract fingerprinter p) ;;
                 if js_truthy fp && negb (instanceof_Array fp) then
                   ret (array_push fps fp)
                 else if js_truthy fp then
                   ret (array_concat fps fp)
                 else ret fps)
                (fun e => log_error e ;;; ret fps))
           [] ;;
  log_info (VVec fps) ;;;
  ret fps.

End Runner.
End Machine.

(** src/unnamed/part_001 lines 404-425. *)
Module Pack.
Section Runner.
Context {GitProject : Type}.

Definition fingerprintRunner
    (fingerprinters : list (FingerprintRegistration GitProject))
    (p : GitProject) : M (list value) :=
  fps <- for_of fingerprinters
           (fun fps fingerprinter =>
              try_catch
                (fp <- lift (extract fingerprinter p) ;;
                 if js_truthy fp && negb (instanceof_Array fp) then
                   ret (array_push fps fp)
                 else if js_truthy fp then
                   ret (array_concat fps fp)
                 else ret fps)
                (fun e => log_error e ;;; ret fps))
           [] ;;
  log_info (VVec fps) ;;;
  ret fps.

End Runner.
End Pack.

(** ** JavaScript objects *)

Definition TypeError : thrown := JsThrow (VStr "TypeError").

(** [o.k], for the property names the sources read (none of them a
    built-in of strings or arrays): reading from null or undefined throws,
    a missing property is undefined. *)
Definition js_prop (o : value) (k : string) : M value :=
  match o with
  | VNil => lift (Thrown TypeError)
  | VMap m => ret (default VNil (m !! k))
  | _ => ret VNil
  end.

(** [o.k = v], in strict mode: only objects take properties (the named
    properties of an array are not represented). *)
Definition js_set (o : value) (k : string) (v : value) : M value :=
  match o with
  | VMap m => ret (VMap (<[k := v]> m))
  | VVec _ => ret o
  | _ => lift (Thrown TypeError)
  end.

(** [orDefault], src/unnamed/part_001 lines 168-174 (and
    src/lib/machine/FingerprintSupport.ts lines 150-156). *)
Definition orDefault {A} (cb : M A) (x : A) : M A :=
  try_catch cb (fun _ => ret x).

(** ** Messages about failed votes *)

(** The fields of [MessageMakerParams] the message makers read; the handler
    context is represented by the two functions that use it. *)
Record MessageMakerParams : Type := {
  msgId : value;
  channel : value;
  coord : value;
  voteResults : VoteResults;
  editProject : value;
  mutateTarget : value;
  editAllProjects : value;
}.

(** src/unnamed/part_001 lines 176-296. *)
Module Messages.
Section Messages.

(** [String(x)] for what is not a string, as in template literals. *)
Variable js_String : value -> string.
(** From the libraries: [actionableButton], [bold], [slackFooter],
    [addressSlackChannelsFromContext] and [messageClient.send]. *)
Variable actionableButton : value -> value -> value -> value.
Variable bold : string -> string.
Variable slackFooter : value.
Variable addressSlackChannelsFromContext : value -> M value.
Variable send : value -> value -> M value.

(** [`${x}`] *)
Definition interpolate (x : value) : string := Main.fmt_s js_String x.

(** [xs.join(sep)]: null and undefined elements print as nothing. *)
Definition join (sep : string) (xs : list value) : string :=
  String.concat sep
    (map (fun x => match x with VNil => "" | _ => interpolate x end) xs).

(** [prBody] *)
Definition prBody (vote : value) : M string :=
  fallback <- (fpTarget <- js_prop vote "fpTarget" ;;
               name <- js_prop fpTarget "name" ;;
               ret (VStr ("apply fingerprint " +:+ interpolate name))) ;;
  title <- orDefault (summary <- js_prop vote "summary" ;;
                      js_prop summary "title") fallback ;;
  description <- orDefault (summary <- js_prop vote "summary" ;;
                            js_prop summary "description")
                           (VStr "no summary") ;;
  ret ("#### " +:+ interpolate title +:+ Main.newline
       +:+ interpolate description).

(** [oneFingerprint] *)
Definition oneFingerprint (params : MessageMakerParams) (vote : value)
    : M value :=
  title <- orDefault (summary <- js_prop vote "summary" ;;
                      js_prop summary "title") (VStr "New Target") ;;
  text <- (fallback <- js_prop vote "text" ;;
           orDefault (summary <- js_prop vote "summary" ;;
                      js_prop summary "description") fallback) ;;
  fpTarget <- js_prop vote "fpTarget" ;;
  fingerprint <- js_prop fpTarget "name" ;;
  fpTarget' <- js_prop vote "fpTarget" ;;
  name' <- js_prop fpTarget' "name" ;;
  body <- prBody vote ;;
  diff <- js_prop vote "diff" ;;
  owner <- js_prop diff "owner" ;;
  diff' <- js_prop vote "diff" ;;
  repo <- js_prop diff' "repo" ;;
  diff'' <- js_prop vote "diff" ;;
  branch <- js_prop diff'' "branch" ;;
  let apply_button :=
    actionableButton
      (VMap {[ "text" := VStr "Apply" ]})
      (editProject params)
      (VMap {[ "msgId" := msgId params;
               "fingerprint" := fingerprint;
               "title" := VStr ("Apply " +:+ interpolate name');
               "body" := VStr body;
               "targets" := VMap {[ "owner" := owner; "repo" := repo;
                                    "branch" := branch ]} ]}) in
  incoming <- js_prop vote "fingerprint" ;;
  name <- js_prop incoming "name" ;;
  incoming' <- js_prop vote "fingerprint" ;;
  sha <- js_prop incoming' "sha" ;;
  let target_button :=
    actionableButton
      (VMap {[ "text" := VStr "Set New Target" ]})
      (mutateTarget params)
      (VMap {[ "msgId" := msgId params; "name" := name; "sha" := sha ]}) in
  ret (VMap {[ "title" := title;
               "text" := text;
               "color" := VStr "warning";
               "fallback" := VStr "Fingerprint Update";
               "mrkdwn_in" := VVec [VStr "text"];
               "actions" := VVec [apply_button; target_button] ]}).

(** [applyAll] *)
Definition applyAll (params : MessageMakerParams) : M value :=
  names <- mapM (fun vote => js_prop vote "name")
                (failedVotes (voteResults params)) ;;
  targets <- mapM (fun vote => fpTarget <- js_prop vote "fpTarget" ;;
                               js_prop fpTarget "name")
                  (failedVotes (voteResults params)) ;;
  targets' <- mapM (fun vote => fpTarget <- js_prop vote "fpTarget" ;;
                                js_prop fpTarget "name")
                   (failedVotes (voteResults params)) ;;
  bodies <- mapM prBody (failedVotes (voteResults params)) ;;
  owner <- js_prop (coord params) "owner" ;;
  repo <- js_prop (coord params) "repo" ;;
  branch <- js_prop (coord params) "branch" ;;
  ret (VMap {[ "title" := VStr "Apply all Changes";
               "text" := VStr ("Apply all changes from " +:+ join ", " names);
               "color" := VStr "warning";
               "fallback" := VStr "Fingerprint Update";
               "mrkdwn_in" := VVec [VStr "text"];
               "actions" :=
                 VVec [actionableButton
                         (VMap {[ "text" := VStr "Apply All" ]})
                         (editAllProjects params)
                         (VMap {[ "msgId" := msgId params;
                                  "fingerprints" := VStr (join "," targets);
                                  "title" :=
                                    VStr ("Apply all of `"
                                          +:+ join ", " targets' +:+ "`");
                                  "body" :=
                                    VStr (String.concat Main.newline bodies);
                                  "targets" :=
                                    VMap {[ "owner" := owner; "repo" := repo;
                                            "branch" := branch ]} ]})] ]}).

(** [message.attachments[message.attachments.length - 1].footer = footer] *)
Definition set_last_footer (attachments : list value) (footer : value)
    : M (list value) :=
  match last attachments with
  | None => lift (Thrown TypeError)
  | Some attachment =>
      attachment' <- js_set attachment "footer" footer ;;
      ret (<[length attachments - 1 := attachment']> attachments)
  end.

(** [messageMaker] *)
Definition messageMaker (params : MessageMakerParams) : M value :=
  owner <- js_prop (coord params) "owner" ;;
  repo <- js_prop (coord params) "repo" ;;
  branch <- js_prop (coord params) "branch" ;;
  let header :=
    VMap {[ "text" :=
              VStr ("Fingerprint differences detected on "
                    +:+ bold (interpolate owner +:+ "/" +:+ interpolate repo
                              +:+ "/" +:+ interpolate branch));
            "fallback" := VStr "Fingerprint diffs" ]} in
  each <- mapM (oneFingerprint params) (failedVotes (voteResults params)) ;;
  attachments <-
    (if decide (1 < length (failedVotes (voteResults params))) then
       all <- applyAll params ;; ret ((header :: each) ++ [all])
     else ret (header :: each)) ;;
  attachments' <- set_last_footer attachments slackFooter ;;
  destinations <- addressSlackChannelsFromContext (channel params) ;;
  send (VMap {[ "attachments" := VVec attachments' ]}) destinations.

End Messages.
End Messages.

(** ** Applying a target to a project *)

(** A registration with its optional [apply]; an [apply] is awaited, so it
    yields a value or throws. *)
Record ApplicableRegistration (GitProject : Type) : Type := {
  registration : FingerprintRegistration GitProject;
  apply : option (GitProject -> value -> outcome value);
}.
Arguments registration {GitProject} _.
Arguments apply {GitProject} _.

(** src/lib/fingerprints/applyFingerprint.ts lines 48-64. *)
Module ApplyFingerprint.
Section Pusher.
Context {GitProject : Type}.

Variable js_String : value -> string.
(** [fingerprints.applyFingerprint(p.baseDir, fp)], from the ClojureScript
    library. *)
Variable applyFingerprint : GitProject -> value -> M value.

(** [pusher] *)
Definition pusher (message : string -> M value) (p : GitProject)
    (registrations : list (ApplicableRegistration GitProject)) (fp : value)
    : M GitProject :=
  log_info (VStr ("transform running -- " +:+ Main.fmt_s js_String fp
                  +:+ " --")) ;;;
  for_of registrations
    (fun (_ : unit) r =>
       match apply r with
       | Some apply_r =>
           if selector (registration r) fp then
             result <- lift (apply_r p fp) ;;
             if negb (js_truthy result) then
               name <- js_prop fp "name" ;;
               message ("failure applying fingerprint "
                        +:+ Main.fmt_s js_String name) ;;;
               ret tt
             else ret tt
           else ret tt
       | None => ret tt
       end) tt ;;;
  applyFingerprint p fp ;;;
  ret p.

End Pusher.
End ApplyFingerprint.

(** ** Commands that set a target *)

(** [o[i]] for a literal index: reading from null or undefined throws, an
    index out of range is undefined. *)
Definition js_index (o : value) (i : nat) : M value :=
  match o with
  | VNil => lift (Thrown TypeError)
  | VVec xs => ret (default VNil (xs !! i))
  | VStr s =>
      ret (match String.get i s with
           | Some c => VStr (String c "")
           | None => VNil
           end)
  | VMap m => ret (default VNil (m !! pretty i))
  | _ => ret VNil
  end.

(** The own enumerable properties [{...x}] copies. *)
Definition own_properties (x : value) : gmap string value :=
  match x with
  | VMap m => m
  | VVec xs => list_to_map (imap (fun i v => (pretty i, v)) xs)
  | VStr s =>
      list_to_map (imap (fun i c => (pretty i, VStr (String c "")))
                        (String.list_ascii_of_string s))
  | _ => ∅
  end.

(** [a || b] *)
Definition js_or (a b : value) : value := if js_truthy a then a else b.

(** src/lib/fingerprints/applyFingerprint.ts lines 216-308. *)
Module UpdateTarget.
Section Commands.

Variable js_String : value -> string.
(** From the platform and from the ClojureScript library: [JSON.parse],
    [JSON.stringify], [setTargetFingerprint] and [setGoalFingerprint] (the
    query and mutation closures are built from the graph client),
    [queryFingerprintOnShaByName], [askAboutBroadcast], [FailurePromise]. *)
Variable JSON_parse : value -> outcome value.
Variable JSON_stringify : value -> value.
Variable setTargetFingerprint : value -> value -> M value.
Variable setGoalFingerprint : value -> value -> value -> value -> M value.
Variable queryFingerprintOnShaByName :
  value -> value -> value -> value -> value -> M value.
Variable askAboutBroadcast : value -> value -> value -> value -> M value.
Variable FailurePromise : value.

(** The listener of [SetTargetFingerprint], lines 295-307. *)
Definition SetTargetFingerprint (cli : value) : M value :=
  parameters <- js_prop cli "parameters" ;;
  submitted <- js_prop parameters "fp" ;;
  log_info (VStr ("set target fingerprint for "
                  +:+ Main.fmt_s js_String submitted)) ;;;
  context <- js_prop cli "context" ;;
  source <- js_prop context "source" ;;
  slack <- js_prop source "slack" ;;
  user <- js_prop slack "user" ;;
  id <- js_prop user "id" ;;
  parameters' <- js_prop cli "parameters" ;;
  submitted' <- js_prop parameters' "fp" ;;
  parsed <- lift (JSON_parse submitted') ;;
  let fp := VMap (own_properties parsed
                  ∪ {[ "user" := VMap {[ "id" := id ]} ]}) in
  context' <- js_prop cli "context" ;;
  graphClient <- js_prop context' "graphClient" ;;
  context'' <- js_prop cli "context" ;;
  graphClient' <- js_prop context'' "graphClient" ;;
  setTargetFingerprint graphClient (JSON_stringify fp) ;;;
  name <- js_prop fp "name" ;;
  data <- js_prop fp "data" ;;
  version <- js_index data 1 ;;
  sha <- js_prop fp "sha" ;;
  askAboutBroadcast cli name version sha.

(** The listener of [SetTargetFingerprintFromLatestMaster], lines 221-247. *)
Definition SetTargetFingerprintFromLatestMaster (cli : value) : M value :=
  parameters <- js_prop cli "parameters" ;;
  given <- js_prop parameters "branch" ;;
  let branch := js_or given (VStr "master") in
  context <- js_prop cli "context" ;;
  graphClient <- js_prop context "graphClient" ;;
  parameters1 <- js_prop cli "parameters" ;;
  repo <- js_prop parameters1 "repo" ;;
  parameters2 <- js_prop cli "parameters" ;;
  owner <- js_prop parameters2 "owner" ;;
  parameters3 <- js_prop cli "parameters" ;;
  fingerprint <- js_prop parameters3 "fingerprint" ;;
  query <- queryFingerprintOnShaByName graphClient repo owner branch
             fingerprint ;;
  Repo <- js_prop query "Repo" ;;
  repo0 <- js_index Repo 0 ;;
  branches <- js_prop repo0 "branches" ;;
  branch0 <- js_index branches 0 ;;
  commit <- js_prop branch0 "commit" ;;
  fingerprints <- js_prop commit "fingerprints" ;;
  fingerprint0 <- js_index fingerprints 0 ;;
  sha <- js_prop fingerprint0 "sha" ;;
  log_info (VStr ("found sha " +:+ Main.fmt_s js_String sha)) ;;;
  if js_truthy sha then
    context1 <- js_prop cli "context" ;;
    graphClient1 <- js_prop context1 "graphClient" ;;
    context2 <- js_prop cli "context" ;;
    graphClient2 <- js_prop context2 "graphClient" ;;
    context3 <- js_prop cli "context" ;;
    graphClient3 <- js_prop context3 "graphClient" ;;
    parameters4 <- js_prop cli "parameters" ;;
    fingerprint' <- js_prop parameters4 "fingerprint" ;;
    context4 <- js_prop cli "context" ;;
    source <- js_prop context4 "source" ;;
    slack <- js_prop source "slack" ;;
    user <- js_prop slack "user" ;;
    id <- js_prop user "id" ;;
    setGoalFingerprint graphClient1 fingerprint' sha id ;;;
    parameters5 <- js_prop cli "parameters" ;;
    fingerprint'' <- js_prop parameters5 "fingerprint" ;;
    askAboutBroadcast cli fingerprint'' (VStr "version") sha
  else ret FailurePromise.

End Commands.
End UpdateTarget.

(** * Specification vocabulary *)

(** The notions the statements below are phrased in. *)

(** A vote that is an object carrying the decision [d]. *)
Definition has_decision (d : string) (v : value) : Prop :=
  exists m, v = VMap m /\ m !! "decision" = Some (VStr d).

(** An element the tally has no use for: not an object, or an object with
    no [decision] field. *)
Definition lacks_decision (v : value) : Prop :=
  match v with
  | VMap m => m !! "decision" = None
  | _ => True
  end.

(** What one extractor contributes, in the words of the specification: a
    failure contributes nothing, a sequence contributes its elements, a
    single fingerprint contributes itself, and nothing contributes nothing. *)
Definition extracted (o : outcome value) : list value :=
  match o with
  | Thrown _ => []
  | Returned (VVec fps) => fps
  | Returned fp => if js_truthy fp then [fp] else []
  end.

(** What one extractor leaves in the log. *)
Definition failures (o : outcome value) : list log_entry :=
  match o with
  | Thrown e => [LogError e]
  | Returned _ => []
  end.

(** A decoded entry of the required shape: an object with the fields
    [name], [sha] and [data]. *)
Definition has_fields (x : value) : Prop :=
  match x with
  | VMap m => is_Some (m !! "name") /\ is_Some (m !! "sha") /\ is_Some (m !! "data")
  | _ => False
  end.

#[global] Instance has_fields_dec (x : value) : Decision (has_fields x).
Proof. destruct x; simpl; apply _. Defined.






(** * Sample data *)

Definition vote (decision name : string) : value :=
  VMap {[ "decision" := VStr decision; "name" := VStr name ]}.
Definition vFor : string -> value := vote "For".
Definition vAgainst : string -> value := vote "Against".
Definition vAbstain : string -> value := vote "Abstain".

(** The vote [setNewTargetFingerprint] returns,
    src/lib/fingerprints/applyFingerprint.ts line 358. *)
Definition abstain_vote : value := VMap {[ "abstain" := VBool true ]}.

(** A stand-in decoder for the examples: two stored strings decode, to a
    well-shaped target named "a" and to an object without the required
    fields; anything else is rejected. *)
Definition target_a : value :=
  VMap {[ "name" := VStr "a"; "sha" := VStr "x"; "data" := VVec [VNum 1] ]}.
Definition garbage : value := VMap {[ "garbage" := VBool true ]}.
Definition sample_json (stored : value) : outcome value :=
  if clj_eq_str "target a" stored then Returned target_a
  else if clj_eq_str "garbage" stored then Returned garbage
  else Thrown (JsThrow (VStr "SyntaxError")).

Definition preference (name stored : string) : value :=
  VMap {[ "name" := VStr name; "value" := VStr stored ]}.
Definition sample_team : value :=
  VMap {[ "preferences" :=
            VVec [preference "p1" "target a"; preference "p2" "garbage";
                  preference "p3" "not json"] ]}.
Definition sample_query : value :=
  VMap {[ "ChatTeam" := VVec [sample_team] ]}.


(** * Vocabulary of the further properties *)

(** A collection [seq] refuses. *)
Definition unseqable (v : value) : Prop :=
  match v with
  | VNum _ | VBool _ => True
  | _ => False
  end.




(** What [processPushImpact] makes of a handler that has an [action], and of
    one that has a [diffAction]. *)
Definition without_diffAction (h : value) : value :=
  match h with
  | VMap m => VMap (delete "diffAction" m)
  | _ => h
  end.

Definition diffAction_as_action (h : value) : value :=
  match h with
  | VMap m => VMap (delete "diffAction" (<["action" := get "diffAction" h]> m))
  | _ => h
  end.





(** Reading [vote.summary.k] under [orDefault]: the default when the vote
    has no summary, the summary's field (undefined when it lacks it)
    otherwise. *)
Definition summary_or (k : string) (fallback : value) (vote : value) : value :=
  match get "summary" vote with
  | VNil => fallback
  | summary => get k summary
  end.

(** A failed vote as the target check produces it, and one a handler of its
    own could return: no target. *)
Definition complete_vote_sample : value :=
  VMap {[ "decision" := VStr "Against"; "name" := VStr "dep";
          "fpTarget" := VMap {[ "name" := VStr "dep"; "sha" := VStr "x" ]};
          "fingerprint" := VMap {[ "name" := VStr "dep"; "sha" := VStr "y" ]};
          "diff" := VMap {[ "owner" := VStr "atomist"; "repo" := VStr "sdm";
                            "branch" := VStr "master" ]};
          "summary" := VMap {[ "title" := VStr "Update";
                               "description" := VStr "dep moved" ]} ]}.

Definition targetless_vote_sample : value :=
  VMap {[ "decision" := VStr "Against"; "name" := VStr "dep";
          "summary" := VMap {[ "title" := VStr "Update";
                               "description" := VStr "dep moved" ]} ]}.

(** A computation that writes nothing and can only fail by a type error. *)
Definition quiet {A} (c : M A) : Prop :=
  forall log, (exists a, c log = (Returned a, log))
              \/ c log = (Thrown TypeError, log).


(** Parameters of a message about the tally of some votes. *)
Definition params_for (votes : list value) : MessageMakerParams :=
  {| msgId := VStr "msg"; channel := VStr "general";
     coord := VMap {[ "owner" := VStr "atomist"; "repo" := VStr "sdm";
                      "branch" := VStr "master" ]};
     voteResults := Main.voteResults votes;
     editProject := VStr "ApplyTargetFingerprint";
     mutateTarget := VStr "UpdateTargetFingerprint";
     editAllProjects := VStr "ApplyAllFingerprints" |}.

(** The callback the command passes for [message], as a collector: each
    message sent is written down. *)
Definition message_sent (s : string) : M value := log_info (VStr s).

(** What a registration leaves behind when its [apply] returns: a failure
    message if [apply] was called and answered something falsy. *)
Definition failure_message {GitProject : Type} (js_String : value -> string)
    (p : GitProject) (fp : value) (r : ApplicableRegistration GitProject)
    : list log_entry :=
  match apply r with
  | Some apply_r =>
      if selector (registration r) fp then
        match apply_r p fp with
        | Returned result =>
            if js_truthy result then []
            else [LogInfo (VStr ("failure applying fingerprint "
                                 +:+ Main.fmt_s js_String (get "name" fp)))]
        | Thrown _ => []
        end
      else []
  | None => []
  end.

(** The registration is not called, or its [apply] returns. *)
Definition apply_returns {GitProject : Type} (p : GitProject) (fp : value)
    (r : ApplicableRegistration GitProject) : Prop :=
  forall apply_r, apply r = Some apply_r ->
                  selector (registration r) fp = true ->
                  exists result, apply_r p fp = Returned result.

(** The registration is called and its [apply] throws [e]. *)
Definition apply_throws {GitProject : Type} (p : GitProject) (fp : value)
    (r : ApplicableRegistration GitProject) (e : thrown) : Prop :=
  exists apply_r, apply r = Some apply_r
                  /\ selector (registration r) fp = true
                  /\ apply_r p fp = Thrown e.

(** Three registrations: one whose [apply] fails, one whose [apply] throws,
    one without [apply]. *)
Definition any_registration : FingerprintRegistration unit :=
  {| selector := fun _ => true; extract := fun _ => Returned VNil |}.

Definition failing : ApplicableRegistration unit :=
  {| registration := any_registration;
     apply := Some (fun _ _ => Returned (VBool false)) |}.

Definition throwing : ApplicableRegistration unit :=
  {| registration := any_registration;
     apply := Some (fun _ _ => Thrown (JsThrow (VStr "EACCES"))) |}.

Definition inert : ApplicableRegistration unit :=
  {| registration := any_registration; apply := None |}.

(** The invocation carries parameters and comes from a chat user. *)
Definition from_chat_user (cli : value) : Prop :=
  get "parameters" cli <> VNil
  /\ get "context" cli <> VNil
  /\ get "source" (get "context" cli) <> VNil
  /\ get "slack" (get "source" (get "context" cli)) <> VNil
  /\ get "user" (get "slack" (get "source" (get "context" cli))) <> VNil.

(** The invoking user's id. *)
Definition invoker (cli : value) : value :=
  get "id" (get "user" (get "slack" (get "source" (get "context" cli)))).

(** The fingerprint the command builds from the decoded parameter. *)
Definition submitted_fp (cli parsed : value) : value :=
  VMap (own_properties parsed ∪ {[ "user" := VMap {[ "id" := invoker cli ]} ]}).

(** An invocation by the chat user U1, and a decoder that knows two
    parameters: a fingerprint that names its own user, and one without
    [data]. *)
Definition command_from_U1 (parameters : gmap string value) : value :=
  VMap {[ "parameters" := VMap parameters;
          "context" :=
            VMap {[ "graphClient" := VStr "graph client";
                    "source" :=
                      VMap {[ "slack" :=
                                VMap {[ "user" :=
                                          VMap {[ "id" := VStr "U1" ]} ]} ]} ]} ]}.

Definition fp_with_user : value :=
  VMap {[ "name" := VStr "dep"; "sha" := VStr "x";
          "data" := VVec [VStr "left-pad"; VStr "1.3.0"];
          "user" := VMap {[ "id" := VStr "U2" ]} ]}.

Definition fp_without_data : value :=
  VMap {[ "name" := VStr "dep"; "sha" := VStr "x" ]}.

Definition sample_parse (text : value) : outcome value :=
  if clj_eq_str "with user" text then Returned fp_with_user
  else if clj_eq_str "without data" text then Returned fp_without_data
  else Thrown (JsThrow (VStr "SyntaxError")).

(** The answer of the query names a repository, a branch and a commit. *)
Definition names_commit (query commit : value) : Prop :=
  exists repo0 repos branch0 branches,
    get "Repo" query = VVec (repo0 :: repos)
    /\ get "branches" repo0 = VVec (branch0 :: branches)
    /\ get "commit" branch0 = commit
    /\ repo0 <> VNil /\ branch0 <> VNil /\ commit <> VNil.

(** An invocation without a branch, and the answer for a commit that has no
    fingerprint of the name. *)
Definition command_without_branch : value :=
  command_from_U1 {[ "repo" := VStr "sdm"; "owner" := VStr "atomist";
                     "fingerprint" := VStr "dep" ]}.

Definition empty_commit : value := VMap {[ "fingerprints" := VVec [] ]}.

Definition answer_without_fingerprint : value :=
  VMap {[ "Repo" :=
            VVec [VMap {[ "branches" :=
                            VVec [VMap {[ "commit" := empty_commit ]}] ]}] ]}.

(** * Properties *)

Example voteResults_for_abstain :
  Main.voteResults [vFor "a"; vAbstain "b"] =
  {| failed := false; failedFps := []; successFps := [VStr "a"];
     failedVotes := [] |}.
Proof. vm_compute. reflexivity. Qed.

Example voteResults_for_against :
  Main.voteResults [vFor "a"; vAgainst "b"] =
  {| failed := true; failedFps := [VStr "b"]; successFps := [VStr "a"];
     failedVotes := [vAgainst "b"] |}.
Proof. vm_compute. reflexivity. Qed.

(** ** Generic facts about the embedding's helpers *)

Lemma some_bool (p : value -> bool) (l : list value) :
  boolean (some (fun v => VBool (p v)) l) = existsb p l.
Proof.
  induction l as [|x l IH]; simpl; [done|].
  destruct (p x); simpl; [done|]. exact IH.
Qed.

Lemma filter_absorb {A} (p q : A -> bool) (l : list A) :
  (forall x, q x = true -> p x = true) ->
  List.filter q (List.filter p l) = List.filter q l.
Proof.
  intros Hqp. induction l as [|x l IH]; simpl; [done|].
  destruct (p x) eqn:Hp; simpl.
  - by rewrite IH.
  - destruct (q x) eqn:Hq; [|done].
    apply Hqp in Hq. congruence.
Qed.

Lemma existsb_perm {A} (p : A -> bool) (l l' : list A) :
  Permutation l l' -> existsb p l = existsb p l'.
Proof.
  induction 1; simpl.
  - done.
  - by f_equal.
  - destruct (p x), (p y); done.
  - congruence.
Qed.

(** ** Votes *)

Lemma decided_spec (d : string) (v : value) :
  clj_eq_str d (get "decision" v) = true <-> has_decision d v.
Proof.
  unfold has_decision. split.
  - destruct v as [| | | | |m]; simpl; try done.
    destruct (m !! "decision") as [[| | |s| |]|] eqn:E; simpl; try done.
    intros ->%String.eqb_eq. eauto.
  - intros (m & -> & E). simpl. rewrite E. simpl. apply String.eqb_refl.
Qed.

#[global] Instance has_decision_dec (d : string) (v : value) :
  Decision (has_decision d v).
Proof.
  destruct (clj_eq_str d (get "decision" v)) eqn:E.
  - left. by apply decided_spec.
  - right. intros H%decided_spec. congruence.
Defined.

Lemma decided_counted (d : string) (v : value) :
  clj_eq_str d (get "decision" v) = true ->
  is_map v && truthy (get "decision" v) = true.
Proof.
  intros (m & -> & E)%decided_spec. simpl. by rewrite E.
Qed.

Lemma filter_decided (d : string) (l : list value) :
  List.filter (fun v => clj_eq_str d (get "decision" v)) l
  = filter (has_decision d) l.
Proof.
  induction l as [|x l IH]; [done|].
  rewrite filter_cons. simpl.
  destruct (clj_eq_str d (get "decision" x)) eqn:E.
  - rewrite decide_True by (by apply decided_spec). by rewrite IH.
  - rewrite decide_False; [done|]. intros H%decided_spec. congruence.
Qed.

(** The votes [voteResults] keeps, and the ones of a given decision among
    them. *)
Lemma counted_decided (d : string) (votes : list value) :
  List.filter (fun v => clj_eq_str d (get "decision" v))
    (List.filter (fun v => is_map v && truthy (get "decision" v)) (map js_clj votes))
  = filter (has_decision d) votes.
Proof.
  unfold js_clj. rewrite map_id.
  rewrite filter_absorb by apply decided_counted.
  apply filter_decided.
Qed.

Lemma voteResults_failedVotes (votes : list value) :
  failedVotes (Main.voteResults votes) = filter (has_decision "Against") votes.
Proof.
  unfold Main.voteResults; simpl. unfold clj_js at 1. rewrite map_id.
  apply counted_decided.
Qed.

Lemma voteResults_failedFps (votes : list value) :
  failedFps (Main.voteResults votes)
  = map (get "name") (filter (has_decision "Against") votes).
Proof.
  unfold Main.voteResults; simpl. unfold clj_js at 1. rewrite map_id.
  by rewrite counted_decided.
Qed.

Lemma voteResults_successFps (votes : list value) :
  successFps (Main.voteResults votes)
  = map (get "name") (filter (has_decision "For") votes).
Proof.
  unfold Main.voteResults; simpl. unfold clj_js at 1. rewrite map_id.
  by rewrite counted_decided.
Qed.

Lemma voteResults_failed (votes : list value) :
  failed (Main.voteResults votes)
  = existsb (fun v => clj_eq_str "Against" (get "decision" v)) votes.
Proof.
  unfold Main.voteResults; simpl. rewrite some_bool.
  unfold js_clj. rewrite map_id.
  induction votes as [|v votes IH]; simpl; [done|].
  destruct (clj_eq_str "Against" (get "decision" v)) eqn:E.
  - rewrite (decided_counted _ _ E). simpl. by rewrite E.
  - destruct (is_map v && truthy (get "decision" v)); simpl; [rewrite E|]; exact IH.
Qed.

Lemma decision_exclusive (d d' : string) (v : value) :
  has_decision d v -> has_decision d' v -> d = d'.
Proof.
  intros (m & -> & E) (m' & [= <-] & E'). congruence.
Qed.

(** C1. [failed] is true exactly when some vote in the list decides
    "Against"; a list whose votes all decide "For" or "Abstain" does not
    fail. *)
Theorem voteResults_failed_iff_against (votes : list value) :
  (failed (Main.voteResults votes) = true <->
     exists v, In v votes /\ has_decision "Against" v)
  /\ ((forall v, In v votes -> has_decision "For" v \/ has_decision "Abstain" v) ->
      failed (Main.voteResults votes) = false).
Proof.
  assert (Hiff : failed (Main.voteResults votes) = true <->
                 exists v, In v votes /\ has_decision "Against" v).
  { rewrite voteResults_failed, existsb_exists.
    split; intros (v & Hin & Hv); exists v; split; try done;
      by apply decided_spec. }
  split; [exact Hiff|].
  intros Hall. apply not_true_is_false. intros (v & Hin & Hv)%Hiff.
  destruct (Hall v Hin) as [H|H];
    by pose proof (decision_exclusive _ _ _ Hv H).
Qed.


(** C6. Reordering the votes changes neither the verdict nor, up to order,
    the failed and successful names. *)
Theorem voteResults_order_insensitive (votes votes' : list value) :
  Permutation votes votes' ->
  failed (Main.voteResults votes) = failed (Main.voteResults votes')
  /\ Permutation (failedFps (Main.voteResults votes))
                 (failedFps (Main.voteResults votes'))
  /\ Permutation (successFps (Main.voteResults votes))
                 (successFps (Main.voteResults votes')).
Proof.
  intros Hperm. rewrite !voteResults_failed, !voteResults_failedFps,
    !voteResults_successFps.
  split; [by apply existsb_perm|].
  split; apply Permutation_map; by rewrite Hperm.
Qed.

Lemma voteResults_order_insensitive_witness :
  Permutation [vFor "a"; vAgainst "b"; vAgainst "c"]
              [vAgainst "b"; vFor "a"; vAgainst "c"]
  /\ failed (Main.voteResults [vFor "a"; vAgainst "b"; vAgainst "c"])
     = failed (Main.voteResults [vAgainst "b"; vFor "a"; vAgainst "c"]).
Proof.
  assert (Hperm : Permutation [vFor "a"; vAgainst "b"; vAgainst "c"]
                              [vAgainst "b"; vFor "a"; vAgainst "c"])
    by apply perm_swap.
  split; [exact Hperm|].
  exact (proj1 (voteResults_order_insensitive _ _ Hperm)).
Defined.

Lemma lacks_decision_dropped (v : value) :
  lacks_decision v -> is_map v && truthy (get "decision" v) = false.
Proof.
  destruct v as [| | | | |m]; simpl; try done. by intros ->.
Qed.

(** C9. An element that is not an object, or has no [decision] field, is
    ignored: the tally is the one of the list without it. *)
Theorem voteResults_ignores_undecided (before after : list value) (v : value) :
  lacks_decision v ->
  Main.voteResults (before ++ v :: after) = Main.voteResults (before ++ after)
  /\ ~ In v (failedVotes (Main.voteResults (before ++ v :: after))).
Proof.
  intros Hv. split; cycle 1.
  { rewrite voteResults_failedVotes, <- list_elem_of_In, list_elem_of_filter.
    intros [(m & -> & E) _]. simpl in Hv. congruence. }
  assert (E : List.filter (fun v => is_map v && truthy (get "decision" v))
                (map js_clj (before ++ v :: after))
              = List.filter (fun v => is_map v && truthy (get "decision" v))
                  (map js_clj (before ++ after))).
  { rewrite !map_app, !List.filter_app. f_equal.
    cbn [map List.filter]. unfold js_clj at 1 2.
    by rewrite (lacks_decision_dropped v Hv). }
  unfold Main.voteResults. by rewrite E.
Qed.

Lemma voteResults_ignores_undecided_witness :
  lacks_decision abstain_vote
  /\ Main.voteResults ([vAgainst "a"] ++ abstain_vote :: [vFor "b"])
     = Main.voteResults ([vAgainst "a"] ++ [vFor "b"]).
Proof.
  assert (H : lacks_decision abstain_vote) by reflexivity.
  split; [exact H|].
  exact (proj1 (voteResults_ignores_undecided [vAgainst "a"] [vFor "b"]
                  abstain_vote H)).
Defined.

(** ** The fingerprint runner *)

Section RunnerFacts.
Context {GitProject : Type}.
Implicit Types (regs : list (FingerprintRegistration GitProject)).

Lemma runner_loop regs (p : GitProject) (fps : list value) (log : list log_entry) :
  for_of regs
    (fun fps fingerprinter =>
       try_catch
         (fp <- lift (extract fingerprinter p) ;;
          if js_truthy fp && negb (instanceof_Array fp) then
            ret (array_push fps fp)
          else if js_truthy fp then
            ret (array_concat fps fp)
          else ret fps)
         (fun e => log_error e ;;; ret fps))
    fps log
  = (Returned (fps ++ flat_map (fun r => extracted (extract r p)) regs),
     log ++ flat_map (fun r => failures (extract r p)) regs).
Proof.
  revert fps log. induction regs as [|r regs IH]; intros fps log.
  - simpl. unfold ret. by rewrite !app_nil_r.
  - cbn [for_of flat_map]. unfold bind at 1, try_catch at 1, bind at 1, lift at 1.
    destruct (extract r p) as [fp|e]; cbn [extracted failures].
    + destruct fp as [|[]|[]|[]|xs|m]; cbn -[for_of flat_map app];
        rewrite IH; unfold array_push, array_concat;
        by rewrite ?app_nil_r, <- ?app_assoc.
    + unfold bind, log_error, ret. rewrite IH.
      by rewrite <- !app_assoc.
Qed.

End RunnerFacts.

(** C2. The runner always returns: an extractor that throws is caught (and
    logged) and contributes nothing, single results are appended, sequences
    are flattened, empty results contribute nothing; the order is the
    registration order and nothing is deduplicated. *)
Theorem fingerprintRunner_collects {GitProject : Type}
    (regs : list (FingerprintRegistration GitProject)) (p : GitProject)
    (log : list log_entry) :
  Pack.fingerprintRunner regs p log
  = (Returned (flat_map (fun r => extracted (extract r p)) regs),
     log ++ flat_map (fun r => failures (extract r p)) regs
         ++ [LogInfo (VVec (flat_map (fun r => extracted (extract r p)) regs))]).
Proof.
  unfold Pack.fingerprintRunner, bind at 1.
  rewrite runner_loop. cbn [app].
  unfold bind, log_info, ret. by rewrite <- app_assoc.
Qed.

(** C10. The two runners in the sources are the same function. *)
Theorem fingerprintRunner_versions_agree {GitProject : Type}
    (regs : list (FingerprintRegistration GitProject)) (p : GitProject)
    (log : list log_entry) :
  Machine.fingerprintRunner regs p log = Pack.fingerprintRunner regs p log.
Proof. reflexivity. Qed.

(** ** Target preferences *)

Section PreferenceFacts.
Variable json_clj : value -> outcome value.






End PreferenceFacts.



Lemma named_spec (n : string) (x : value) :
  clj_eq_str n (get "name" x) = true <-> get "name" x = VStr n.
Proof.
  destruct (get "name" x) as [| | |s| |]; simpl; try done.
  rewrite String.eqb_eq. split; [by intros ->|by intros [= ->]].
Qed.





(** ** Rendering a diff *)

#[local] Arguments String.append !_ _ : simpl nomatch.

Lemma append_nil_r (s : string) : s +:+ "" = s.
Proof. induction s as [|c s IH]; [done|]. cbn [String.append]. by f_equal. Qed.


Lemma str_interpose (parts : list string) :
  str (map Some (interpose "," parts)) = String.concat "," parts.
Proof.
  induction parts as [|x [|y parts] IH]; [done| |].
  - simpl. apply append_nil_r.
  - change (x +:+ "," +:+ str (map Some (interpose "," (y :: parts)))
            = x +:+ "," +:+ String.concat "," (y :: parts)).
    by rewrite IH.
Qed.

Section RenderingFacts.
Variable js_String : value -> string.




End RenderingFacts.



(** * Further properties of the embedded functions *)

(** ** Tallies compose *)

(** X1. Tallying two batches of votes at once is tallying each and merging:
    the verdicts are or-ed and the three lists are appended. *)
Theorem voteResults_app (votes votes' : list value) :
  Main.voteResults (votes ++ votes')
  = {| failed := failed (Main.voteResults votes)
                 || failed (Main.voteResults votes');
       failedFps := failedFps (Main.voteResults votes)
                    ++ failedFps (Main.voteResults votes');
       successFps := successFps (Main.voteResults votes)
                     ++ successFps (Main.voteResults votes');
       failedVotes := failedVotes (Main.voteResults votes)
                      ++ failedVotes (Main.voteResults votes') |}.
Proof.
  unfold Main.voteResults. cbn [failed failedFps successFps failedVotes].
  rewrite !some_bool, !map_app, !List.filter_app, !map_app, existsb_app.
  reflexivity.
Qed.





(** ** The runner composes *)

Lemma runner_run {GitProject : Type}
    (regs : list (FingerprintRegistration GitProject)) (p : GitProject)
    (log : list log_entry) :
  Pack.fingerprintRunner regs p log
  = (Returned (flat_map (fun r => extracted (extract r p)) regs),
     log ++ flat_map (fun r => failures (extract r p)) regs
         ++ [LogInfo (VVec (flat_map (fun r => extracted (extract r p)) regs))]).
Proof.
  unfold Pack.fingerprintRunner, bind at 1.
  rewrite runner_loop. cbn [app].
  unfold bind, log_info, ret. by rewrite <- app_assoc.
Qed.

(** X4. Running two lists of registrations in one go returns the
    fingerprints of the first run followed by those of the second, whatever
    the logs the runs start from. *)
Theorem fingerprintRunner_app {GitProject : Type}
    (regs regs' : list (FingerprintRegistration GitProject)) (p : GitProject)
    (log log1 log2 : list log_entry) :
  exists fps fps',
    (Pack.fingerprintRunner regs p log1).1 = Returned fps
    /\ (Pack.fingerprintRunner regs' p log2).1 = Returned fps'
    /\ (Pack.fingerprintRunner (regs ++ regs') p log).1 = Returned (fps ++ fps').
Proof.
  eexists _, _. rewrite !runner_run. cbn [fst].
  split; [done|]. split; [done|]. by rewrite flat_map_app.
Qed.

(** X5. The runner writes one error per throwing extractor and one closing
    info line: the log grows by the number of failures plus one, and when no
    extractor throws only the info line is added. *)
Theorem fingerprintRunner_log {GitProject : Type}
    (regs : list (FingerprintRegistration GitProject)) (p : GitProject)
    (log : list log_entry) :
  length (Pack.fingerprintRunner regs p log).2
  = length log
    + length (List.filter (fun r => match extract r p with
                                    | Thrown _ => true
                                    | Returned _ => false
                                    end) regs)
    + 1
  /\ ((forall r, In r regs -> exists fp, extract r p = Returned fp) ->
      exists fps, Pack.fingerprintRunner regs p log
                  = (Returned fps, log ++ [LogInfo (VVec fps)])).
Proof.
  rewrite runner_run. cbn [snd]. split.
  - rewrite !length_app. cbn [length].
    assert (E : length (flat_map (fun r => failures (extract r p)) regs)
                = length (List.filter (fun r => match extract r p with
                                                | Thrown _ => true
                                                | Returned _ => false
                                                end) regs)).
    { induction regs as [|r regs IH]; [done|].
      cbn [flat_map List.filter]. rewrite length_app, IH.
      by destruct (extract r p). }
    rewrite E. lia.
  - intros Hall. eexists. f_equal.
    assert (E : flat_map (fun r => failures (extract r p)) regs = []).
    { induction regs as [|r regs IH]; [done|].
      cbn [flat_map]. rewrite IH by (intros; apply Hall; by right).
      destruct (Hall r) as [fp ->]; [by left|done]. }
    by rewrite E.
Qed.

Lemma fingerprintRunner_log_witness :
  exists fps,
    Pack.fingerprintRunner
      [{| selector := fun _ => true;
          extract := fun _ : unit => Returned (VVec [target_a; target_a]) |};
       {| selector := fun _ => true;
          extract := fun _ : unit => Returned VNil |}] tt []
    = (Returned fps, [] ++ [LogInfo (VVec fps)]).
Proof.
  apply (proj2 (fingerprintRunner_log _ tt [])).
  intros r [<-|[<-|[]]]; eexists; reflexivity.
Defined.

(** ** Target preferences: edges *)

Lemma seq_unseqable (v : value) (log : list log_entry) :
  unseqable v -> seq v log = (Thrown (NotISeqable v), log).
Proof. by destruct v. Qed.

(** X6. A query without a chat team, with an empty list of teams, or whose
    first team has no preferences, reads as no targets: the list is empty,
    a lookup finds nothing, nothing is thrown and nothing is logged. *)
Theorem fpPreferences_nothing_stored (json_clj : value -> outcome value)
    (query : value) (n : string) (log : list log_entry) :
  get "ChatTeam" query = VNil
  \/ get "ChatTeam" query = VVec []
  \/ (exists team teams, get "ChatTeam" query = VVec (team :: teams)
                         /\ (get "preferences" team = VNil
                             \/ get "preferences" team = VVec [])) ->
  Main.fpPreferences json_clj query log = (Returned (VVec []), log)
  /\ Main.fpPreference json_clj query n log = (Returned VNil, log).
Proof.
  intros Hq.
  assert (H : Main.fpPreferences json_clj query log = (Returned (VVec []), log)).
  { unfold Main.fpPreferences, js_clj, first.
    destruct Hq as [->|[->|(team & teams & -> & [Hp|Hp])]];
      unfold seq at 1, bind at 1, bind at 1, ret at 1, ret at 1; cbn [hd get];
      rewrite ?Hp; reflexivity. }
  split; [exact H|].
  unfold Main.fpPreference, bind at 1. by rewrite H.
Qed.

Lemma fpPreferences_nothing_stored_witness :
  Main.fpPreferences sample_json (VMap ∅) [] = (Returned (VVec []), [])
  /\ Main.fpPreference sample_json (VMap ∅) "a" [] = (Returned VNil, []).
Proof.
  apply (fpPreferences_nothing_stored sample_json (VMap ∅) "a" []).
  by left.
Defined.

(** X7. When the chat teams, or the first team's preferences, are a number
    or a boolean, reading throws: the value is not seqable.  The lookup of a
    name throws the same, and nothing is logged. *)
Theorem fpPreferences_not_seqable (json_clj : value -> outcome value)
    (query : value) (n : string) (log : list log_entry) :
  (unseqable (get "ChatTeam" query) ->
   Main.fpPreferences json_clj query log
   = (Thrown (NotISeqable (get "ChatTeam" query)), log)
   /\ Main.fpPreference json_clj query n log
      = (Thrown (NotISeqable (get "ChatTeam" query)), log))
  /\ (forall team teams,
        get "ChatTeam" query = VVec (team :: teams) ->
        unseqable (get "preferences" team) ->
        Main.fpPreferences json_clj query log
        = (Thrown (NotISeqable (get "preferences" team)), log)
        /\ Main.fpPreference json_clj query n log
           = (Thrown (NotISeqable (get "preferences" team)), log)).
Proof.
  split.
  - intros Hu.
    assert (H : Main.fpPreferences json_clj query log
                = (Thrown (NotISeqable (get "ChatTeam" query)), log)).
    { unfold Main.fpPreferences, js_clj, first, bind at 1, bind at 1.
      by rewrite seq_unseqable. }
    split; [exact H|]. unfold Main.fpPreference, bind at 1. by rewrite H.
  - intros team teams Hq Hu.
    assert (H : Main.fpPreferences json_clj query log
                = (Thrown (NotISeqable (get "preferences" team)), log)).
    { unfold Main.fpPreferences, js_clj, first. rewrite Hq.
      unfold seq at 1, bind at 1, bind at 1, ret at 1, ret at 1. cbn [hd].
      unfold bind at 1. by rewrite seq_unseqable. }
    split; [exact H|]. unfold Main.fpPreference, bind at 1. by rewrite H.
Qed.

Lemma fpPreferences_not_seqable_witness :
  Main.fpPreferences sample_json (VMap {[ "ChatTeam" := VNum 5 ]}) []
  = (Thrown (NotISeqable (VNum 5)), []).
Proof.
  exact (proj1 (proj1 (fpPreferences_not_seqable sample_json
                         (VMap {[ "ChatTeam" := VNum 5 ]}) "a" []) I)).
Defined.

(** X8. Only the first chat team is read: two queries whose lists of teams
    start with the same team give the same result and the same log. *)
Theorem fpPreferences_first_team_only (json_clj : value -> outcome value)
    (query query' team : value) (teams teams' : list value)
    (log : list log_entry) :
  get "ChatTeam" query = VVec (team :: teams) ->
  get "ChatTeam" query' = VVec (team :: teams') ->
  Main.fpPreferences json_clj query log = Main.fpPreferences json_clj query' log.
Proof.
  intros Hq Hq'. unfold Main.fpPreferences, js_clj, first.
  by rewrite Hq, Hq'.
Qed.

Lemma fpPreferences_first_team_only_witness :
  Main.fpPreferences sample_json sample_query []
  = Main.fpPreferences sample_json
      (VMap {[ "ChatTeam" := VVec [sample_team; VNum 7] ]}) [].
Proof.
  exact (fpPreferences_first_team_only sample_json sample_query
           (VMap {[ "ChatTeam" := VVec [sample_team; VNum 7] ]})
           sample_team [] [VNum 7] [] eq_refl eq_refl).
Defined.

(** ** Lookup against the list *)


Lemma some_named_result (n : string) (xs : list value) :
  (forall x, In x xs -> truthy x = true) ->
  some (fun x => if clj_eq_str n (get "name" x) then x else VNil) xs = VNil
  \/ (In (some (fun x => if clj_eq_str n (get "name" x) then x else VNil) xs) xs
      /\ get "name" (some (fun x => if clj_eq_str n (get "name" x)
                                    then x else VNil) xs) = VStr n).
Proof.
  induction xs as [|y xs IH]; intros Hall; [by left|].
  cbn [some]. destruct (clj_eq_str n (get "name" y)) eqn:E.
  - rewrite Hall by (by left). right. split; [by left|by apply named_spec].
  - cbn [truthy]. destruct IH as [H|[H1 H2]].
    + intros x Hx. apply Hall. by right.
    + by left.
    + right. split; [by right|done].
Qed.



Lemma fpPreferences_returns_vector (json_clj : value -> outcome value)
    (query v : value) (log log' : list log_entry) :
  Main.fpPreferences json_clj query log = (Returned v, log') ->
  exists xs, v = VVec xs /\ forall x, In x xs -> truthy x = true.
Proof.
  unfold Main.fpPreferences, clj_js, bind.
  destruct (first _ log) as [[team|e] log1]; [|done].
  destruct (seq _ log1) as [[prefs|e] log2]; [|done].
  destruct (mapM _ prefs log2) as [[decoded|e] log3]; [|done].
  unfold ret. intros [= <- <-]. eexists. split; [done|].
  intros x [_ Hx]%filter_In. unfold Main.has_target_keys in Hx.
  by destruct (truthy x).
Qed.

(** X10. The lookup is the list read and then searched: it throws exactly
    what reading the list throws, and otherwise returns nil or an element of
    the list that has the name asked for; the log is the one of the read. *)
Theorem fpPreference_agrees_with_list (json_clj : value -> outcome value)
    (query : value) (n : string) (log : list log_entry) :
  (forall e log',
     Main.fpPreferences json_clj query log = (Thrown e, log') ->
     Main.fpPreference json_clj query n log = (Thrown e, log'))
  /\ (forall v log',
        Main.fpPreferences json_clj query log = (Returned v, log') ->
        exists xs r,
          v = VVec xs
          /\ Main.fpPreference json_clj query n log = (Returned r, log')
          /\ (r = VNil \/ (In r xs /\ get "name" r = VStr n))).
Proof.
  split.
  - intros e log' H. unfold Main.fpPreference, bind at 1. by rewrite H.
  - intros v log' H.
    destruct (fpPreferences_returns_vector _ _ _ _ _ H) as (xs & -> & Hall).
    exists xs. eexists. split; [done|]. split.
    + unfold Main.fpPreference, bind at 1. rewrite H. reflexivity.
    + apply some_named_result, Hall.
Qed.

(** ** Rendering a diff: the other cases *)









(** ** Handlers of a push impact *)

Lemma mapM_returns {A B} (f : A -> M B) (g : A -> B) (xs : list A)
    (log : list log_entry) :
  (forall x, In x xs -> forall log, f x log = (Returned (g x), log)) ->
  mapM f xs log = (Returned (map g xs), log).
Proof.
  revert log. induction xs as [|x xs IH]; intros log Hf; [done|].
  cbn [mapM map]. unfold bind at 1. rewrite Hf by (by left).
  unfold bind at 1. rewrite IH; [done|].
  intros y Hy. apply Hf. by right.
Qed.

Lemma processPushImpact_run {GetFingerprint Promise : Type}
    (process_push_impact :
       value -> GetFingerprint -> list value -> list value -> M value)
    (chan_obj_promise : M value -> M Promise)
    (event : value) (get_fingerprint : GetFingerprint)
    (handlers : list value) (log : list log_entry) :
  Main.processPushImpact process_push_impact chan_obj_promise
    event get_fingerprint (VVec handlers) log
  = chan_obj_promise
      (process_push_impact event get_fingerprint
         (map diffAction_as_action
            (List.filter (fun h => contains h "diffAction") handlers))
         (map without_diffAction
            (List.filter (fun h => contains h "action") handlers))) log.
Proof.
  unfold Main.processPushImpact, js_clj, seq, bind at 1, ret at 1.
  unfold bind at 1.
  rewrite (mapM_returns _ without_diffAction); cycle 1.
  { intros h [_ Hh]%filter_In log'. by destruct h. }
  unfold bind at 1.
  rewrite (mapM_returns _ diffAction_as_action); cycle 1.
  { intros h [_ Hh]%filter_In log'. by destruct h. }
  reflexivity.
Qed.

(** X14. Whatever handlers come in as an array, [process-push-impact] is
    called once, and every handler it receives has an [action] and no
    [diffAction]: a handler with an [action] is passed on among the handlers
    without diff, its [diffAction] removed; a handler with a [diffAction] is
    passed on among the diff handlers, the [diffAction] having become its
    [action]; a handler with neither is passed on nowhere. *)
Theorem processPushImpact_handlers {GetFingerprint Promise : Type}
    (process_push_impact :
       value -> GetFingerprint -> list value -> list value -> M value)
    (chan_obj_promise : M value -> M Promise)
    (event : value) (get_fingerprint : GetFingerprint)
    (handlers : list value) (log : list log_entry) :
  exists diff_handlers no_diff_handlers,
    Main.processPushImpact process_push_impact chan_obj_promise
      event get_fingerprint (VVec handlers) log
    = chan_obj_promise
        (process_push_impact event get_fingerprint
           diff_handlers no_diff_handlers) log
    /\ (forall h, In h (diff_handlers ++ no_diff_handlers) ->
          contains h "action" = true /\ contains h "diffAction" = false)
    /\ (forall h, In h no_diff_handlers <->
          exists m, In (VMap m) handlers /\ is_Some (m !! "action")
                    /\ h = VMap (delete "diffAction" m))
    /\ (forall h, In h diff_handlers <->
          exists m a, In (VMap m) handlers /\ m !! "diffAction" = Some a
                      /\ h = VMap (<["action" := a]> (delete "diffAction" m))).
Proof.
  eexists _, _. split; [apply processPushImpact_run|].
  assert (Hno : forall h,
            In h (map without_diffAction
                    (List.filter (fun h => contains h "action") handlers)) <->
            exists m, In (VMap m) handlers /\ is_Some (m !! "action")
                      /\ h = VMap (delete "diffAction" m)).
  { intros h. rewrite in_map_iff. split.
    - intros (h0 & <- & [Hin Hc]%filter_In).
      destruct h0 as [| | | | |m]; try done.
      apply bool_decide_eq_true in Hc. by exists m.
    - intros (m & Hin & Hs & ->). exists (VMap m). split; [done|].
      apply filter_In. split; [done|]. by apply bool_decide_eq_true. }
  assert (Hdiff : forall h,
            In h (map diffAction_as_action
                    (List.filter (fun h => contains h "diffAction") handlers)) <->
            exists m a, In (VMap m) handlers /\ m !! "diffAction" = Some a
                        /\ h = VMap (<["action" := a]> (delete "diffAction" m))).
  { intros h. rewrite in_map_iff. split.
    - intros (h0 & <- & [Hin Hc]%filter_In).
      destruct h0 as [| | | | |m]; try done.
      apply bool_decide_eq_true in Hc as [a Ha]. exists m, a.
      split; [done|]. split; [done|]. cbn [diffAction_as_action get].
      rewrite Ha. cbn [default from_option id]. f_equal.
      by rewrite delete_insert_ne.
    - intros (m & a & Hin & Ha & ->). exists (VMap m). split.
      + cbn [diffAction_as_action get]. rewrite Ha. cbn [default from_option id].
        f_equal. by rewrite delete_insert_ne.
      + apply filter_In. split; [done|]. apply bool_decide_eq_true. eauto. }
  split; [|by split].
  intros h [(m & a & _ & _ & ->)%Hdiff|(m & _ & Hs & ->)%Hno]%in_app_or;
    cbn [contains]; split.
  - apply bool_decide_eq_true. rewrite lookup_insert_eq. eauto.
  - apply bool_decide_eq_false. rewrite lookup_insert_ne by done.
    rewrite lookup_delete_eq. by intros [? ?].
  - apply bool_decide_eq_true. by rewrite lookup_delete_ne.
  - apply bool_decide_eq_false. rewrite lookup_delete_eq. by intros [? ?].
Qed.

(** ** Rendering for Clojure projects *)







(** ** Comma-separated lists *)

Lemma interpose_map {A B} (f : A -> B) (sep : A) (xs : list A) :
  map f (interpose sep xs) = interpose (f sep) (map f xs).
Proof.
  induction xs as [|x [|y xs] IH]; [done|done|].
  change (f x :: f sep :: map f (interpose sep (y :: xs))
          = f x :: f sep :: interpose (f sep) (map f (y :: xs))).
  by rewrite IH.
Qed.

(** X17. The comma-separated list of an array is its elements' strings
    joined by single commas, in order; nil elements print as nothing (their
    commas stay), and no array at all gives the empty string. *)
Theorem commaSeparatedList_joins (js_String : value -> string)
    (xs : list value) (log : list log_entry) :
  Main.commaSeparatedList js_String (VVec xs) log
  = (Returned (String.concat "," (map (Main.str1 js_String) xs)), log)
  /\ Main.commaSeparatedList js_String VNil log = (Returned "", log)
  /\ Main.commaSeparatedList js_String (VVec [VStr "a"; VNil; VStr "b"]) log
     = (Returned "a,,b", log).
Proof.
  assert (H : forall ys, Main.commaSeparatedList js_String (VVec ys) log
            = (Returned (String.concat "," (map (Main.str1 js_String) ys)), log)).
  { intros ys. unfold Main.commaSeparatedList, js_clj, seq, bind, ret.
    do 2 f_equal.
    rewrite <- (map_map (Main.str1 js_String) Some), interpose_map.
    apply str_interpose. }
  split; [apply H|]. split; [done|]. by rewrite H.
Qed.

(** ** The body of a pull request *)

Lemma js_prop_get (o : value) (k : string) (log : list log_entry) :
  o <> VNil -> js_prop o k log = (Returned (get k o), log).
Proof. by destruct o. Qed.

Lemma js_prop_nil (k : string) (log : list log_entry) :
  js_prop VNil k log = (Thrown TypeError, log).
Proof. done. Qed.

Lemma orDefault_summary (k : string) (fallback vote : value)
    (log : list log_entry) :
  vote <> VNil ->
  orDefault (summary <- js_prop vote "summary" ;; js_prop summary k)
            fallback log
  = (Returned (summary_or k fallback vote), log).
Proof.
  intros Hv. unfold orDefault, try_catch, bind, summary_or.
  rewrite js_prop_get by done.
  destruct (get "summary" vote); done.
Qed.

Section MessageFacts.
Variable js_String : value -> string.

Lemma prBody_run (vote : value) (log : list log_entry) :
  get "fpTarget" vote <> VNil ->
  Messages.prBody js_String vote log
  = (Returned
       ("#### "
        +:+ Messages.interpolate js_String
              (summary_or "title"
                 (VStr ("apply fingerprint "
                        +:+ Messages.interpolate js_String
                              (get "name" (get "fpTarget" vote))))
                 vote)
        +:+ Main.newline
        +:+ Messages.interpolate js_String
              (summary_or "description" (VStr "no summary") vote)),
     log).
Proof.
  intros Ht.
  assert (Hv : vote <> VNil) by (by intros ->).
  unfold Messages.prBody.
  unfold bind at 1, bind at 1. rewrite js_prop_get by done.
  unfold bind at 1. rewrite js_prop_get by done.
  unfold ret at 1, bind at 1. rewrite orDefault_summary by done.
  unfold bind at 1. rewrite orDefault_summary by done.
  reflexivity.
Qed.

Lemma prBody_throws (vote : value) (log : list log_entry) :
  get "fpTarget" vote = VNil ->
  Messages.prBody js_String vote log = (Thrown TypeError, log).
Proof.
  intros Ht. unfold Messages.prBody, bind at 1, bind at 1.
  destruct vote as [| | | | |m]; try done.
  rewrite js_prop_get by done. rewrite Ht. reflexivity.
Qed.

End MessageFacts.

(** X18. The body of a pull request for a vote with a target: the title and
    the description of the vote's summary under a "####" heading, and for a
    vote without summary the title "apply fingerprint" with the target's
    name and the description "no summary". *)
Theorem prBody_text (js_String : value -> string) (vote target : value)
    (log : list log_entry) :
  get "fpTarget" vote = target ->
  target <> VNil ->
  (forall title description,
     get "summary" vote
     = VMap {[ "title" := VStr title; "description" := VStr description ]} ->
     Messages.prBody js_String vote log
     = (Returned ("#### " +:+ title +:+ Main.newline +:+ description), log))
  /\ (get "summary" vote = VNil ->
      Messages.prBody js_String vote log
      = (Returned ("#### apply fingerprint "
                   +:+ Messages.interpolate js_String (get "name" target)
                   +:+ Main.newline +:+ "no summary"), log)).
Proof.
  intros <- Ht. split.
  - intros title description Hs. rewrite prBody_run by done.
    unfold summary_or. rewrite Hs. reflexivity.
  - intros Hs. rewrite prBody_run by done.
    unfold summary_or. rewrite Hs.
    reflexivity.
Qed.

Lemma prBody_text_witness :
  Messages.prBody (fun _ => "undefined") complete_vote_sample []
  = (Returned ("#### Update" +:+ Main.newline +:+ "dep moved"), []).
Proof.
  exact (proj1 (prBody_text (fun _ => "undefined") complete_vote_sample
                  (VMap {[ "name" := VStr "dep"; "sha" := VStr "x" ]}) []
                  eq_refl ltac:(discriminate))
           "Update" "dep moved" eq_refl).
Defined.

(** X19. The fallback title is computed before the summary is looked at: a
    vote without a target makes the body throw a type error even when its
    summary has a title and a description. *)
Theorem prBody_needs_target (js_String : value -> string) (vote : value)
    (log : list log_entry) :
  get "fpTarget" vote = VNil ->
  Messages.prBody js_String vote log = (Thrown TypeError, log).
Proof. apply prBody_throws. Qed.

Lemma prBody_needs_target_witness :
  Messages.prBody (fun _ => "undefined") targetless_vote_sample []
  = (Thrown TypeError, []).
Proof.
  exact (prBody_needs_target (fun _ => "undefined") targetless_vote_sample []
           eq_refl).
Defined.

(** ** The message about failed votes *)

Lemma bind_returned {A B} (c : M A) (k : A -> M B) (a : A)
    (log log' : list log_entry) :
  c log = (Returned a, log') -> (x <- c ;; k x) log = k a log'.
Proof. intros H. unfold bind. by rewrite H. Qed.

Lemma bind_thrown {A B} (c : M A) (k : A -> M B) (e : thrown)
    (log log' : list log_entry) :
  c log = (Thrown e, log') -> (x <- c ;; k x) log = (Thrown e, log').
Proof. intros H. unfold bind. by rewrite H. Qed.

Lemma quiet_ret {A} (a : A) : quiet (ret a).
Proof. intros log. left. by exists a. Qed.

Lemma quiet_bind {A B} (c : M A) (k : A -> M B) :
  quiet c -> (forall a, quiet (k a)) -> quiet (x <- c ;; k x).
Proof.
  intros Hc Hk log. destruct (Hc log) as [[a Ha]|He].
  - rewrite (bind_returned _ _ _ _ _ Ha). apply Hk.
  - right. by apply bind_thrown.
Qed.

Lemma quiet_js_prop (o : value) (k : string) : quiet (js_prop o k).
Proof. intros log. destruct o; (by right) || (left; by eexists). Qed.

Lemma orDefault_quiet {A} (c : M A) (x : A) (log : list log_entry) :
  quiet c -> exists a, orDefault c x log = (Returned a, log).
Proof.
  intros Hc. unfold orDefault, try_catch.
  destruct (Hc log) as [[a ->] | ->]; by eexists.
Qed.

Lemma quiet_orDefault {A} (c : M A) (x : A) : quiet c -> quiet (orDefault c x).
Proof. intros Hc log. left. by apply orDefault_quiet. Qed.

Lemma quiet_mapM {A B} (f : A -> M B) (xs : list A) :
  (forall x, quiet (f x)) -> quiet (mapM f xs).
Proof.
  intros Hf. induction xs as [|x xs IH]; [apply quiet_ret|].
  cbn [mapM]. apply quiet_bind; [apply Hf|]. intros y.
  apply quiet_bind; [apply IH|]. intros ys. apply quiet_ret.
Qed.

Lemma mapM_quiet_throws {A B} (f : A -> M B) (xs : list A) (x : A)
    (log : list log_entry) :
  (forall y, quiet (f y)) ->
  In x xs ->
  (forall log, f x log = (Thrown TypeError, log)) ->
  mapM f xs log = (Thrown TypeError, log).
Proof.
  intros Hf Hin Hx. induction xs as [|y xs IH]; [done|].
  cbn [mapM]. destruct (Hf y log) as [[b Hb]|He].
  - rewrite (bind_returned _ _ _ _ _ Hb).
    destruct Hin as [->|Hin]; [rewrite Hx in Hb; done|].
    apply bind_thrown. by apply IH.
  - by apply bind_thrown.
Qed.


Section MessageMakerFacts.
Variable js_String : value -> string.
Variable actionableButton : value -> value -> value -> value.
Variable bold : string -> string.
Variable slackFooter : value.
Variable addressSlackChannelsFromContext : value -> M value.
Variable send : value -> value -> M value.

Lemma quiet_prBody (vote : value) : quiet (Messages.prBody js_String vote).
Proof.
  unfold Messages.prBody.
  repeat first
    [ apply quiet_ret | apply quiet_js_prop | apply quiet_orDefault
    | apply quiet_bind; [|intros ?] ].
Qed.

Lemma quiet_oneFingerprint (params : MessageMakerParams) (vote : value) :
  quiet (Messages.oneFingerprint js_String actionableButton params vote).
Proof.
  unfold Messages.oneFingerprint.
  repeat first
    [ apply quiet_ret | apply quiet_js_prop | apply quiet_orDefault
    | apply quiet_prBody | apply quiet_bind; [|intros ?] ].
Qed.

Lemma oneFingerprint_needs_target (params : MessageMakerParams) (vote : value)
    (log : list log_entry) :
  get "fpTarget" vote = VNil ->
  Messages.oneFingerprint js_String actionableButton params vote log
  = (Thrown TypeError, log).
Proof.
  intros Ht. unfold Messages.oneFingerprint.
  destruct (orDefault_quiet
              (summary <- js_prop vote "summary" ;; js_prop summary "title")
              (VStr "New Target") log) as [title Htitle].
  { apply quiet_bind; [apply quiet_js_prop|intros ?; apply quiet_js_prop]. }
  rewrite (bind_returned _ _ _ _ _ Htitle).
  destruct vote as [| | | | |m];
    try (apply bind_thrown; by apply bind_thrown);
    try (erewrite bind_returned;
         [|erewrite bind_returned by done; by apply orDefault_summary];
         erewrite bind_returned by done; by apply bind_thrown).
  erewrite bind_returned;
    [|erewrite bind_returned by (by apply js_prop_get);
      by apply orDefault_summary].
  erewrite bind_returned by (by apply js_prop_get).
  rewrite Ht. by apply bind_thrown.
Qed.



End MessageMakerFacts.



(** X21. One failed vote without a target is enough for no message to be
    sent: the message maker throws a type error, having written nothing. *)
Theorem messageMaker_needs_targets (js_String : value -> string)
    (actionableButton : value -> value -> value -> value)
    (bold : string -> string) (slackFooter : value)
    (addressSlackChannelsFromContext : value -> M value)
    (send : value -> value -> M value)
    (params : MessageMakerParams) (vote : value) (log : list log_entry) :
  In vote (failedVotes (voteResults params)) ->
  get "fpTarget" vote = VNil ->
  Messages.messageMaker js_String actionableButton bold slackFooter
    addressSlackChannelsFromContext send params log
  = (Thrown TypeError, log).
Proof.
  intros Hin Ht. unfold Messages.messageMaker.
  assert (Hthrow :
    mapM (Messages.oneFingerprint js_String actionableButton params)
         (failedVotes (voteResults params)) log = (Thrown TypeError, log)).
  { apply mapM_quiet_throws with vote; [|done|].
    - apply quiet_oneFingerprint.
    - intros log'. by apply oneFingerprint_needs_target. }
  destruct (quiet_js_prop (coord params) "owner" log) as [[owner Ho]|He];
    [rewrite (bind_returned _ _ _ _ _ Ho)|by apply bind_thrown].
  destruct (quiet_js_prop (coord params) "repo" log) as [[repo Hr]|He];
    [rewrite (bind_returned _ _ _ _ _ Hr)|by apply bind_thrown].
  destruct (quiet_js_prop (coord params) "branch" log) as [[branch Hb]|He];
    [rewrite (bind_returned _ _ _ _ _ Hb)|by apply bind_thrown].
  by apply bind_thrown.
Qed.


Lemma messageMaker_needs_targets_witness :
  Messages.messageMaker (fun _ => "undefined")
    (fun spec command parameters => VVec [spec; command; parameters])
    (fun s => s) (VStr "footer") ret (fun message _ => ret message)
    (params_for [complete_vote_sample; targetless_vote_sample]) []
  = (Thrown TypeError, []).
Proof.
  apply (messageMaker_needs_targets (fun _ => "undefined")
           (fun spec command parameters => VVec [spec; command; parameters])
           (fun s => s) (VStr "footer") ret (fun message _ => ret message)
           (params_for [complete_vote_sample; targetless_vote_sample])
           targetless_vote_sample []).
  - right. left. reflexivity.
  - reflexivity.
Defined.

(** ** Applying a target to a project *)

Lemma for_of_app {A S} (xs ys : list A) (body : S -> A -> M S) (s : S)
    (log : list log_entry) :
  for_of (xs ++ ys) body s log = (s' <- for_of xs body s ;; for_of ys body s') log.
Proof.
  revert s log. induction xs as [|x xs IH]; intros s log; [reflexivity|].
  cbn [app for_of]. unfold bind.
  destruct (body s x log) as [[s'|e] log']; [|reflexivity].
  rewrite IH. reflexivity.
Qed.

Section PusherFacts.
Context {GitProject : Type}.
Variable js_String : value -> string.
Variable applyFingerprint : GitProject -> value -> M value.
Implicit Types (regs : list (ApplicableRegistration GitProject)).

Lemma pusher_loop regs (p : GitProject) (fp : value) (log : list log_entry) :
  fp <> VNil ->
  (forall r, In r regs -> apply_returns p fp r) ->
  for_of regs
    (fun (_ : unit) r =>
       match apply r with
       | Some apply_r =>
           if selector (registration r) fp then
             result <- lift (apply_r p fp) ;;
             if negb (js_truthy result) then
               name <- js_prop fp "name" ;;
               message_sent ("failure applying fingerprint "
                             +:+ Main.fmt_s js_String name) ;;;
               ret tt
             else ret tt
           else ret tt
       | None => ret tt
       end) tt log
  = (Returned tt, log ++ flat_map (failure_message js_String p fp) regs).
Proof.
  intros Hfp. revert log. induction regs as [|r regs IH]; intros log Hall.
  - cbn. unfold ret. by rewrite app_nil_r.
  - cbn [for_of flat_map]. unfold failure_message at 1.
    pose proof (Hall r (or_introl eq_refl)) as Hr. unfold apply_returns in Hr.
    destruct (apply r) as [apply_r|].
    + destruct (selector (registration r) fp).
      * destruct (Hr apply_r eq_refl eq_refl) as [result Hres].
        unfold bind at 1, bind at 1, lift. rewrite Hres.
        destruct (js_truthy result); cbn [negb].
        -- unfold ret at 1. rewrite IH by (intros; apply Hall; by right).
           by rewrite app_nil_l.
        -- unfold bind at 1. rewrite js_prop_get by done.
           unfold bind at 1, message_sent, log_info, ret at 1.
           rewrite IH by (intros; apply Hall; by right).
           by rewrite <- app_assoc.
      * unfold bind at 1, ret at 1.
        rewrite IH by (intros; apply Hall; by right). done.
    + unfold bind at 1, ret at 1.
      rewrite IH by (intros; apply Hall; by right). done.
Qed.

Lemma pusher_loop_throws regs (p : GitProject) (fp : value)
    (r : ApplicableRegistration GitProject) (e : thrown)
    (log : list log_entry) :
  apply_throws p fp r e ->
  for_of (r :: regs)
    (fun (_ : unit) r =>
       match apply r with
       | Some apply_r =>
           if selector (registration r) fp then
             result <- lift (apply_r p fp) ;;
             if negb (js_truthy result) then
               name <- js_prop fp "name" ;;
               message_sent ("failure applying fingerprint "
                             +:+ Main.fmt_s js_String name) ;;;
               ret tt
             else ret tt
           else ret tt
       | None => ret tt
       end) tt log
  = (Thrown e, log).
Proof.
  intros (apply_r & Ha & Hs & He). cbn [for_of].
  rewrite Ha, Hs. unfold bind, lift. by rewrite He.
Qed.

End PusherFacts.

(** X22. When no [apply] throws, the pusher calls for a failure message
    once for each registration that has an [apply], selects the fingerprint
    and whose [apply] answers false, in the order of the registrations; then
    it hands the fingerprint to the ClojureScript library and returns the
    project. *)
Theorem pusher_reports_failures {GitProject : Type}
    (js_String : value -> string)
    (applyFingerprint : GitProject -> value -> M value)
    (p : GitProject) (regs : list (ApplicableRegistration GitProject))
    (fp : value) (log : list log_entry) :
  fp <> VNil ->
  (forall r, In r regs -> apply_returns p fp r) ->
  ApplyFingerprint.pusher js_String applyFingerprint message_sent p regs fp log
  = (applyFingerprint p fp ;;; ret p)
      (log ++ [LogInfo (VStr ("transform running -- "
                              +:+ Main.fmt_s js_String fp +:+ " --"))]
           ++ flat_map (failure_message js_String p fp) regs).
Proof.
  intros Hfp Hall. unfold ApplyFingerprint.pusher.
  unfold bind at 1, log_info at 1. unfold bind at 1.
  rewrite pusher_loop by done. by rewrite <- app_assoc.
Qed.

(** X23. Unlike the runner, the pusher does not catch: when an [apply]
    throws, the pusher throws the same, the registrations after it are not
    consulted and the ClojureScript library is not called; the failure
    messages of the registrations before it were sent. *)
Theorem pusher_stops_at_throw {GitProject : Type}
    (js_String : value -> string)
    (applyFingerprint : GitProject -> value -> M value)
    (p : GitProject) (before after : list (ApplicableRegistration GitProject))
    (r : ApplicableRegistration GitProject) (e : thrown)
    (fp : value) (log : list log_entry) :
  fp <> VNil ->
  (forall r', In r' before -> apply_returns p fp r') ->
  apply_throws p fp r e ->
  ApplyFingerprint.pusher js_String applyFingerprint message_sent p
    (before ++ r :: after) fp log
  = (Thrown e,
     log ++ [LogInfo (VStr ("transform running -- "
                            +:+ Main.fmt_s js_String fp +:+ " --"))]
         ++ flat_map (failure_message js_String p fp) before).
Proof.
  intros Hfp Hall Hr. unfold ApplyFingerprint.pusher.
  unfold bind at 1, log_info at 1. unfold bind at 1.
  rewrite for_of_app. unfold bind at 1.
  rewrite pusher_loop by done.
  rewrite (pusher_loop_throws js_String after p fp r e) by done.
  by rewrite <- app_assoc.
Qed.

Lemma pusher_reports_failures_witness :
  ApplyFingerprint.pusher (fun _ => "[object Object]") (fun _ _ => ret VNil)
    message_sent tt [failing; inert; failing] target_a []
  = (Returned tt,
     [LogInfo (VStr "transform running -- [object Object] --");
      LogInfo (VStr "failure applying fingerprint a");
      LogInfo (VStr "failure applying fingerprint a")]).
Proof.
  apply (pusher_reports_failures (fun _ => "[object Object]")
           (fun _ _ => ret VNil) tt [failing; inert; failing] target_a []).
  - discriminate.
  - intros r [<-|[<-|[<-|[]]]] apply_r [= <-] _; by eexists.
Defined.

Lemma pusher_stops_at_throw_witness :
  ApplyFingerprint.pusher (fun _ => "[object Object]") (fun _ _ => ret VNil)
    message_sent tt ([failing] ++ throwing :: [failing]) target_a []
  = (Thrown (JsThrow (VStr "EACCES")),
     [LogInfo (VStr "transform running -- [object Object] --");
      LogInfo (VStr "failure applying fingerprint a")]).
Proof.
  apply (pusher_stops_at_throw (fun _ => "[object Object]")
           (fun _ _ => ret VNil) tt [failing] [failing] throwing
           (JsThrow (VStr "EACCES")) target_a []).
  - discriminate.
  - intros r [<-|[]] apply_r [= <-] _. by eexists.
  - by eexists.
Defined.

(** ** Commands that set a target *)

Section CommandFacts.
Variable js_String : value -> string.
Variable JSON_parse : value -> outcome value.
Variable JSON_stringify : value -> value.
Variable setTargetFingerprint : value -> value -> M value.
Variable setGoalFingerprint : value -> value -> value -> value -> M value.
Variable queryFingerprintOnShaByName :
  value -> value -> value -> value -> value -> M value.
Variable askAboutBroadcast : value -> value -> value -> value -> M value.
Variable FailurePromise : value.

Lemma SetTargetFingerprint_run (cli parsed : value) (log : list log_entry) :
  from_chat_user cli ->
  JSON_parse (get "fp" (get "parameters" cli)) = Returned parsed ->
  UpdateTarget.SetTargetFingerprint js_String JSON_parse JSON_stringify
    setTargetFingerprint askAboutBroadcast cli log
  = (setTargetFingerprint (get "graphClient" (get "context" cli))
       (JSON_stringify (submitted_fp cli parsed)) ;;;
     name <- js_prop (submitted_fp cli parsed) "name" ;;
     data <- js_prop (submitted_fp cli parsed) "data" ;;
     version <- js_index data 1 ;;
     sha <- js_prop (submitted_fp cli parsed) "sha" ;;
     askAboutBroadcast cli name version sha)
      (log ++ [LogInfo (VStr ("set target fingerprint for "
                              +:+ Main.fmt_s js_String
                                    (get "fp" (get "parameters" cli))))]).
Proof.
  intros (Hp & Hc & Hs & Hsl & Hu) Hparse.
  assert (Hcli : cli <> VNil) by (by intros ->).
  unfold UpdateTarget.SetTargetFingerprint.
  do 2 erewrite bind_returned by (by apply js_prop_get).
  erewrite bind_returned by reflexivity.
  do 7 erewrite bind_returned by (by apply js_prop_get).
  erewrite bind_returned by (unfold lift; by rewrite Hparse).
  do 4 erewrite bind_returned by (by apply js_prop_get).
  reflexivity.
Qed.

End CommandFacts.

(** X24. The fingerprint that is stored is the decoded parameter with the
    invoking user added, but a [user] field of the parameter itself wins
    over the invoker; every other field is the parameter's.  When the
    fingerprint has a [data] tuple, the command stores it and then asks
    about a broadcast with its name, the second element of [data] and its
    hash. *)
Theorem SetTargetFingerprint_stores (js_String : value -> string)
    (JSON_parse : value -> outcome value) (JSON_stringify : value -> value)
    (setTargetFingerprint : value -> value -> M value)
    (askAboutBroadcast : value -> value -> value -> value -> M value)
    (cli parsed stored : value) (data : list value)
    (log log' : list log_entry) :
  from_chat_user cli ->
  JSON_parse (get "fp" (get "parameters" cli)) = Returned parsed ->
  setTargetFingerprint (get "graphClient" (get "context" cli))
    (JSON_stringify (submitted_fp cli parsed))
    (log ++ [LogInfo (VStr ("set target fingerprint for "
                            +:+ Main.fmt_s js_String
                                  (get "fp" (get "parameters" cli))))])
  = (Returned stored, log') ->
  get "data" (submitted_fp cli parsed) = VVec data ->
  get "user" (submitted_fp cli parsed)
  = default (VMap {[ "id" := invoker cli ]}) (own_properties parsed !! "user")
  /\ (forall k, k <> "user" ->
        get k (submitted_fp cli parsed)
        = default VNil (own_properties parsed !! k))
  /\ UpdateTarget.SetTargetFingerprint js_String JSON_parse JSON_stringify
       setTargetFingerprint askAboutBroadcast cli log
     = askAboutBroadcast cli (get "name" (submitted_fp cli parsed))
         (default VNil (data !! 1)) (get "sha" (submitted_fp cli parsed)) log'.
Proof.
  intros Hcli Hparse Hstore Hdata. split; [|split].
  - unfold submitted_fp. cbn [get]. rewrite lookup_union.
    rewrite lookup_singleton_eq.
    by destruct (own_properties parsed !! "user").
  - intros k Hk. unfold submitted_fp. cbn [get]. rewrite lookup_union.
    rewrite lookup_singleton_ne by done.
    by destruct (own_properties parsed !! k).
  - rewrite (SetTargetFingerprint_run js_String JSON_parse JSON_stringify
               setTargetFingerprint askAboutBroadcast cli parsed log)
      by done.
    erewrite bind_returned by exact Hstore.
    do 2 erewrite bind_returned by (by apply js_prop_get).
    rewrite Hdata.
    erewrite bind_returned by reflexivity.
    erewrite bind_returned by (by apply js_prop_get).
    reflexivity.
Qed.

(** X25. A parameter that decodes to an object without [data] is stored as
    the target all the same, and only then does the command throw a type
    error: no broadcast is asked about. *)
Theorem SetTargetFingerprint_without_data (js_String : value -> string)
    (JSON_parse : value -> outcome value) (JSON_stringify : value -> value)
    (setTargetFingerprint : value -> value -> M value)
    (askAboutBroadcast : value -> value -> value -> value -> M value)
    (cli parsed stored : value) (log log' : list log_entry) :
  from_chat_user cli ->
  JSON_parse (get "fp" (get "parameters" cli)) = Returned parsed ->
  setTargetFingerprint (get "graphClient" (get "context" cli))
    (JSON_stringify (submitted_fp cli parsed))
    (log ++ [LogInfo (VStr ("set target fingerprint for "
                            +:+ Main.fmt_s js_String
                                  (get "fp" (get "parameters" cli))))])
  = (Returned stored, log') ->
  get "data" parsed = VNil ->
  is_map parsed = true ->
  UpdateTarget.SetTargetFingerprint js_String JSON_parse JSON_stringify
    setTargetFingerprint askAboutBroadcast cli log
  = (Thrown TypeError, log').
Proof.
  intros Hcli Hparse Hstore Hdata Hmap.
  rewrite (SetTargetFingerprint_run js_String JSON_parse JSON_stringify
             setTargetFingerprint askAboutBroadcast cli parsed log) by done.
  erewrite bind_returned by exact Hstore.
  do 2 erewrite bind_returned by (by apply js_prop_get).
  assert (Hnone : get "data" (submitted_fp cli parsed) = VNil).
  { destruct parsed as [| | | | |m]; try done.
    unfold submitted_fp. cbn [get own_properties] in *.
    rewrite lookup_union, lookup_singleton_ne by done.
    destruct (m !! "data"); [done|done]. }
  rewrite Hnone. by apply bind_thrown.
Qed.

Lemma SetTargetFingerprint_stores_witness :
  get "user" (submitted_fp (command_from_U1 {[ "fp" := VStr "with user" ]})
                fp_with_user)
  = VMap {[ "id" := VStr "U2" ]}
  /\ UpdateTarget.SetTargetFingerprint (fun _ => "undefined") sample_parse
       (fun v => v) (fun _ json => log_info json)
       (fun _ name version sha => ret (VVec [name; version; sha]))
       (command_from_U1 {[ "fp" := VStr "with user" ]}) []
     = (Returned (VVec [VStr "dep"; VStr "1.3.0"; VStr "x"]),
        [LogInfo (VStr "set target fingerprint for with user");
         LogInfo (submitted_fp (command_from_U1 {[ "fp" := VStr "with user" ]})
                    fp_with_user)]).
Proof.
  assert (H := SetTargetFingerprint_stores (fun _ => "undefined") sample_parse
                (fun v => v) (fun _ json => log_info json)
                (fun _ name version sha => ret (VVec [name; version; sha]))
                (command_from_U1 {[ "fp" := VStr "with user" ]})
                fp_with_user VNil [VStr "left-pad"; VStr "1.3.0"] []
                [LogInfo (VStr "set target fingerprint for with user");
                 LogInfo (submitted_fp
                            (command_from_U1 {[ "fp" := VStr "with user" ]})
                            fp_with_user)]).
  destruct H as (Huser & _ & Hrun).
  - repeat split; discriminate.
  - reflexivity.
  - reflexivity.
  - reflexivity.
  - split; [exact Huser|exact Hrun].
Defined.

Lemma SetTargetFingerprint_without_data_witness :
  UpdateTarget.SetTargetFingerprint (fun _ => "undefined") sample_parse
    (fun v => v) (fun _ json => log_info json)
    (fun _ name version sha => ret (VVec [name; version; sha]))
    (command_from_U1 {[ "fp" := VStr "without data" ]}) []
  = (Thrown TypeError,
     [LogInfo (VStr "set target fingerprint for without data");
      LogInfo (submitted_fp (command_from_U1 {[ "fp" := VStr "without data" ]})
                 fp_without_data)]).
Proof.
  apply (SetTargetFingerprint_without_data (fun _ => "undefined") sample_parse
           (fun v => v) (fun _ json => log_info json)
           (fun _ name version sha => ret (VVec [name; version; sha]))
           (command_from_U1 {[ "fp" := VStr "without data" ]})
           fp_without_data VNil []
           [LogInfo (VStr "set target fingerprint for without data");
            LogInfo (submitted_fp
                       (command_from_U1 {[ "fp" := VStr "without data" ]})
                       fp_without_data)]).
  - repeat split; discriminate.
  - reflexivity.
  - reflexivity.
  - reflexivity.
  - reflexivity.
Defined.

Lemma js_index_head (x : value) (xs : list value) (log : list log_entry) :
  js_index (VVec (x :: xs)) 0 log = (Returned x, log).
Proof. done. Qed.

Lemma js_index_empty (i : nat) (log : list log_entry) :
  js_index (VVec []) i log = (Returned VNil, log).
Proof. done. Qed.

(** X26. Setting the target from the latest commit queries the branch given,
    or "master" when none (or an empty one) is given.  When the commit has
    no fingerprint of the name, the command throws a type error; when the
    fingerprint found has an empty hash, it returns the failure promise.  In
    both cases nothing has been stored and no broadcast is asked about. *)
Theorem SetTargetFingerprintFromLatestMaster_nothing_found
    (js_String : value -> string)
    (setGoalFingerprint : value -> value -> value -> value -> M value)
    (queryFingerprintOnShaByName :
       value -> value -> value -> value -> value -> M value)
    (askAboutBroadcast : value -> value -> value -> value -> M value)
    (FailurePromise cli query commit : value) (log log' : list log_entry) :
  get "parameters" cli <> VNil ->
  get "context" cli <> VNil ->
  queryFingerprintOnShaByName (get "graphClient" (get "context" cli))
    (get "repo" (get "parameters" cli)) (get "owner" (get "parameters" cli))
    (js_or (get "branch" (get "parameters" cli)) (VStr "master"))
    (get "fingerprint" (get "parameters" cli)) log
  = (Returned query, log') ->
  names_commit query commit ->
  (get "fingerprints" commit = VVec [] ->
   UpdateTarget.SetTargetFingerprintFromLatestMaster js_String
     setGoalFingerprint queryFingerprintOnShaByName askAboutBroadcast
     FailurePromise cli log
   = (Thrown TypeError, log'))
  /\ (forall found others,
        get "fingerprints" commit = VVec (found :: others) ->
        found <> VNil ->
        js_truthy (get "sha" found) = false ->
        UpdateTarget.SetTargetFingerprintFromLatestMaster js_String
          setGoalFingerprint queryFingerprintOnShaByName askAboutBroadcast
          FailurePromise cli log
        = (Returned FailurePromise,
           log' ++ [LogInfo (VStr ("found sha "
                                   +:+ Main.fmt_s js_String
                                         (get "sha" found)))])).
Proof.
  intros Hp Hc Hquery (repo0 & repos & branch0 & branches
                       & HRepo & Hbranches & <- & Hr0 & Hb0 & Hcommit).
  assert (Hcli : cli <> VNil) by (by intros ->).
  assert (Hq : query <> VNil) by (intros ->; done).
  split.
  - intros Hnone. unfold UpdateTarget.SetTargetFingerprintFromLatestMaster.
    do 10 erewrite bind_returned by (by apply js_prop_get).
    erewrite bind_returned by exact Hquery.
    erewrite bind_returned by (by apply js_prop_get).
    rewrite HRepo. erewrite bind_returned by apply js_index_head.
    erewrite bind_returned by (by apply js_prop_get).
    rewrite Hbranches. erewrite bind_returned by apply js_index_head.
    do 2 erewrite bind_returned by (by apply js_prop_get).
    rewrite Hnone. erewrite bind_returned by apply js_index_empty.
    by apply bind_thrown.
  - intros found others Hfound Hne Hsha.
    unfold UpdateTarget.SetTargetFingerprintFromLatestMaster.
    do 10 erewrite bind_returned by (by apply js_prop_get).
    erewrite bind_returned by exact Hquery.
    erewrite bind_returned by (by apply js_prop_get).
    rewrite HRepo. erewrite bind_returned by apply js_index_head.
    erewrite bind_returned by (by apply js_prop_get).
    rewrite Hbranches. erewrite bind_returned by apply js_index_head.
    do 2 erewrite bind_returned by (by apply js_prop_get).
    rewrite Hfound. erewrite bind_returned by apply js_index_head.
    erewrite bind_returned by (by apply js_prop_get).
    erewrite bind_returned by reflexivity.
    by rewrite Hsha.
Qed.

Lemma SetTargetFingerprintFromLatestMaster_nothing_found_witness :
  UpdateTarget.SetTargetFingerprintFromLatestMaster (fun _ => "undefined")
    (fun _ _ _ _ => ret VNil)
    (fun _ _ _ branch _ => log_info branch ;;; ret answer_without_fingerprint)
    (fun _ _ _ _ => ret VNil) (VStr "failure") command_without_branch []
  = (Thrown TypeError, [LogInfo (VStr "master")]).
Proof.
  apply (proj1 (SetTargetFingerprintFromLatestMaster_nothing_found
                  (fun _ => "undefined") (fun _ _ _ _ => ret VNil)
                  (fun _ _ _ branch _ =>
                     log_info branch ;;; ret answer_without_fingerprint)
                  (fun _ _ _ _ => ret VNil) (VStr "failure")
                  command_without_branch answer_without_fingerprint
                  empty_commit [] [LogInfo (VStr "master")]
                  ltac:(discriminate) ltac:(discriminate) eq_refl
                  ltac:(eexists _, _, _, _; repeat split;
                        first [reflexivity | discriminate]))).
  reflexivity.
Defined.
